(** * OmniParser: the MCP action dispatcher and the Gemini message helper

    A shallow embedding of [mcp_server.py] (the tool handlers that drive the
    computer-control backend) and of [googleaiclient.py]
    ([run_gemini_interleaved]: history adaptation and the generation call),
    followed by the properties proved about them.

    Conventions of the embedding.
    - Python values are [pyval]; a [dict] with string keys is a
      [gmap string pyval], a [str] is a [string] of ASCII characters.
    - Exceptions are values [exn] (class and [str(e)]); the classes are the
      ones derived from [Exception].  Interpreter signals deriving from
      [BaseException] only (KeyboardInterrupt, SystemExit, the cancellation
      of a coroutine) are not failures of the program and are not modelled;
      nor are the limits of memory.
    - Effects are explicit: a computation is a function of the state of the
      outside world that also extends a trace of the effects performed.
    - [print] calls write to the console only and are left out. *)

From Stdlib Require Import ZArith String Ascii List Bool Lia.
From Stdlib Require Import Floats.SpecFloat.
From Stdlib Require Import DecimalString.
From stdpp Require Import gmap strings list.

Set Warnings "-register-all".
Local Open Scope Z_scope.
Local Open Scope string_scope.

(** ** Python values, strings and exceptions *)

Module Py.

Inductive pyval : Type :=
| PNone
| PBool (b : bool)
| PInt (z : Z)
| PFloat (f : spec_float)
| PStr (s : string)
| PTuple (items : list pyval)
| PList (items : list pyval)
| PDict (d : gmap string pyval).

(** [d.get(k)] and [d.get(k, default)]. *)
Definition dict_get (d : gmap string pyval) (k : string) : pyval :=
  default PNone (d !! k).

Definition dict_get_default (d : gmap string pyval) (k : string) (dflt : pyval) : pyval :=
  default dflt (d !! k).

(** A dict display [{k1: v1, k2: v2, ...}]: later entries win. *)
Definition dict_literal (kvs : list (string * pyval)) : gmap string pyval :=
  fold_left (fun m kv => <[kv.1 := kv.2]> m) kvs ∅.

(** [x is None] *)
Definition is_None (v : pyval) : bool :=
  match v with PNone => true | _ => false end.

(** [str.lower()] on ASCII text. *)
Definition lower_ascii (c : ascii) : ascii :=
  let n := nat_of_ascii c in
  if ((65 <=? n)%nat && (n <=? 90)%nat)%bool then ascii_of_nat (n + 32) else c.

Fixpoint lower (s : string) : string :=
  match s with
  | EmptyString => EmptyString
  | String c r => String (lower_ascii c) (lower r)
  end.

(** [needle in hay] for strings. *)
Fixpoint contains (needle hay : string) : bool :=
  if String.prefix needle hay then true
  else match hay with
       | EmptyString => false
       | String _ r => contains needle r
       end.

(** [str(n)] for an [int]. *)
Definition str_of_int (z : Z) : string :=
  NilZero.string_of_int (Z.to_int z).

(** The exception classes that occur, with their place in the hierarchy
    under [Exception].  [UserException n] is any other class [n] derived
    directly from [Exception]. *)
Inductive exn_class : Type :=
| Exception
| ImportError
| ModuleNotFoundError
| AttributeError
| TypeError
| ValueError
| LookupError
| KeyError
| OSError
| FileNotFoundError
| PermissionError
| UnidentifiedImageError
| RuntimeError
| RecursionError
| ToolError
| UserException (name : string).

Global Instance exn_class_eq_dec : EqDecision exn_class.
Proof. solve_decision. Defined.

(** Method resolution order of a class, itself first. *)
Definition mro (c : exn_class) : list exn_class :=
  match c with
  | Exception => [Exception]
  | ModuleNotFoundError => [ModuleNotFoundError; ImportError; Exception]
  | KeyError => [KeyError; LookupError; Exception]
  | FileNotFoundError => [FileNotFoundError; OSError; Exception]
  | PermissionError => [PermissionError; OSError; Exception]
  | UnidentifiedImageError => [UnidentifiedImageError; OSError; Exception]
  | RecursionError => [RecursionError; RuntimeError; Exception]
  | c => [c; Exception]
  end.

(** [type(e).__name__] *)
Definition class_name (c : exn_class) : string :=
  match c with
  | Exception => "Exception"
  | ImportError => "ImportError"
  | ModuleNotFoundError => "ModuleNotFoundError"
  | AttributeError => "AttributeError"
  | TypeError => "TypeError"
  | ValueError => "ValueError"
  | LookupError => "LookupError"
  | KeyError => "KeyError"
  | OSError => "OSError"
  | FileNotFoundError => "FileNotFoundError"
  | PermissionError => "PermissionError"
  | UnidentifiedImageError => "UnidentifiedImageError"
  | RuntimeError => "RuntimeError"
  | RecursionError => "RecursionError"
  | ToolError => "ToolError"
  | UserException n => n
  end.

(** A raised exception: its class and [str(e)]. *)
Record exn : Type := mk_exn { exn_cls : exn_class; exn_str : string }.

Definition isinstance_exn (e : exn) (c : exn_class) : bool :=
  bool_decide (c ∈ mro (exn_cls e)).

(** The outcome of evaluating something that may raise. *)
Inductive result (A : Type) : Type :=
| Ok (a : A)
| Raise (e : exn).
Arguments Ok {A} a.
Arguments Raise {A} e.

(** [type(v).__name__], as it appears in the interpreter's messages. *)
Definition type_name (v : pyval) : string :=
  match v with
  | PNone => "NoneType"
  | PBool _ => "bool"
  | PInt _ => "int"
  | PFloat _ => "float"
  | PStr _ => "str"
  | PTuple _ => "tuple"
  | PList _ => "list"
  | PDict _ => "dict"
  end.

(** [v.lower()]: only [str] has the method. *)
Definition str_lower (v : pyval) : result string :=
  match v with
  | PStr s => Ok (lower s)
  | _ => Raise (mk_exn AttributeError
                  ("'" ++ type_name v ++ "' object has no attribute 'lower'"))
  end.

(** [v > 0]: numbers compare, [bool] being an [int]; a NaN is not greater
    than anything; other types do not support the comparison. *)
Definition gt_zero (v : pyval) : result bool :=
  match v with
  | PBool b => Ok b
  | PInt z => Ok (0 <? z)%Z
  | PFloat f => Ok (SFltb (S754_zero false) f)
  | _ => Raise (mk_exn TypeError
                  ("'>' not supported between instances of '" ++ type_name v
                   ++ "' and 'int'"))
  end.

End Py.
Export Py.


(** ** Effects: state passing with exceptions *)

Module Eff.

(** A computation reads and updates a state of type [S] and returns a
    value or raises. *)
Definition M (S A : Type) : Type := S -> result A * S.

Definition ret {S A} (a : A) : M S A := fun s => (Ok a, s).

Definition raise {S A} (e : exn) : M S A := fun s => (Raise e, s).

Definition bind {S A B} (m : M S A) (k : A -> M S B) : M S B :=
  fun s => match m s with
           | (Ok a, s') => k a s'
           | (Raise e, s') => (Raise e, s')
           end.

Definition lift {S A} (r : result A) : M S A := fun s => (r, s).

Declare Scope py_scope.
Delimit Scope py_scope with py.
Notation "'let*' x ':=' c 'in' k" := (bind c (fun x => k))
  (at level 10, x name, c at level 100, k at level 200) : py_scope.

(** [try: body except C1 as e: h1 e except C2 as e: h2 e ...]: the first
    clause whose class the exception is an instance of handles it; with no
    such clause the exception propagates. *)
Definition try_except {S A} (body : M S A)
    (handlers : list (exn_class * (exn -> M S A))) : M S A :=
  fun s => match body s with
           | (Ok a, s') => (Ok a, s')
           | (Raise e, s') =>
               match List.find (fun h => isinstance_exn e (fst h)) handlers with
               | Some h => snd h e s'
               | None => (Raise e, s')
               end
           end.

End Eff.
Export Eff.
Local Open Scope py_scope.

(** ** mcp_server.py: the action dispatcher *)

Module Dispatcher.

(** The keyword arguments of one call of the backend,
    [computer_tool_instance(action=..., text=..., coordinate=...)]. *)
Record call : Type := mk_call {
  action : string;
  text : pyval;
  coordinate : pyval
}.

(** Modelled from the spec: the [ToolResult] class is declared in
    [omnitool.gradio.tools], outside the sources at hand.  The backend
    returns "a result object exposing [.output] and an optional
    [.base64_image]". *)
Record tool_result : Type := mk_tool_result {
  output : pyval;
  base64_image : option pyval
}.

(** The effects a handler can perform. *)
Inductive event : Type :=
| Invoke (c : call)
| Sleep (duration : pyval).

(** What the handlers consume from outside: the long-lived backend handle
    (an awaitable call that returns a [ToolResult] or raises), the event
    loop's [asyncio.sleep], taken to return once the delay has passed, and
    the interpreter's [str()] for floats and containers. *)
Class Runtime (W : Type) : Type := {
  computer_tool_instance : call -> W -> result tool_result * W;
  asyncio_sleep : pyval -> W -> W;
  repr_value : pyval -> string
}.

Record state (W : Type) : Type := mk_state {
  world : W;
  trace : list event
}.
Arguments mk_state {W} world trace.
Arguments world {W} s.
Arguments trace {W} s.

Local Open Scope py_scope.

Section Handlers.
Context {W : Type} `{RT : Runtime W}.

(** [await computer_tool_instance(action=.., text=.., coordinate=..)] *)
Definition await_computer_tool (c : call) : M (state W) tool_result :=
  fun s => let (r, w) := computer_tool_instance c (world s) in
           (r, mk_state w (trace s ++ [Invoke c])).

(** [await asyncio.sleep(duration)] *)
Definition await_sleep (d : pyval) : M (state W) unit :=
  fun s => (Ok tt, mk_state (asyncio_sleep d (world s)) (trace s ++ [Sleep d])).

(** [str(v)], as an f-string field formats it. *)
Definition py_str (v : pyval) : string :=
  match v with
  | PNone => "None"
  | PBool true => "True"
  | PBool false => "False"
  | PInt z => str_of_int z
  | PStr s => s
  | _ => repr_value v
  end.

Definition safe_computer_action (action_str : string) (text coordinate : pyval)
    : M (state W) pyval :=
  try_except
    (let* tool_result := await_computer_tool (mk_call action_str text coordinate) in
     ret (PDict (dict_literal
            [("status", PStr "success");
             ("output", output tool_result);
             ("base64_image", default PNone (base64_image tool_result))])))
    [(ToolError, fun e =>
        ret (PDict (dict_literal
               [("status", PStr "error"); ("message", PStr (exn_str e))])));
     (Exception, fun e =>
        ret (PDict (dict_literal
               [("status", PStr "error");
                ("message", PStr ("Unexpected error in ComputerTool: " ++ exn_str e))])))].

Definition handle_mouse_move (params : gmap string pyval) : M (state W) pyval :=
  let x := dict_get params "x" in
  let y := dict_get params "y" in
  if (is_None x || is_None y)%bool then
    ret (PDict (dict_literal
           [("status", PStr "error"); ("message", PStr "Missing x or y coordinate.")]))
  else safe_computer_action "mouse_move" PNone (PTuple [x; y]).

Definition action_map : gmap (string * string) string :=
  <[("left", "double") := "double_click"]>
  (<[("middle", "click") := "middle_click"]>
  (<[("right", "click") := "right_click"]>
  (<[("left", "click") := "left_click"]> ∅))).

Definition handle_mouse_click (params : gmap string pyval) : M (state W) pyval :=
  let button := dict_get_default params "button" (PStr "left") in
  let click_type := dict_get_default params "click_type" (PStr "click") in
  let* b := lift (str_lower button) in
  let* c := lift (str_lower click_type) in
  let computer_action_str := action_map !! (b, c) in
  match computer_action_str with
  | Some a =>
      if bool_decide (a = "") then
        ret (PDict (dict_literal
               [("status", PStr "error");
                ("message", PStr ("Unsupported button/click_type: "
                                  ++ py_str button ++ "/" ++ py_str click_type))]))
      else safe_computer_action a PNone PNone
  | None =>
      ret (PDict (dict_literal
             [("status", PStr "error");
              ("message", PStr ("Unsupported button/click_type: "
                                ++ py_str button ++ "/" ++ py_str click_type))]))
  end.

Definition handle_mouse_drag (params : gmap string pyval) : M (state W) pyval :=
  let x := dict_get params "x" in
  let y := dict_get params "y" in
  if (is_None x || is_None y)%bool then
    ret (PDict (dict_literal
           [("status", PStr "error");
            ("message", PStr "Missing x or y coordinate for drag.")]))
  else safe_computer_action "left_click_drag" PNone (PTuple [x; y]).

Definition handle_keyboard_type (params : gmap string pyval) : M (state W) pyval :=
  let text_to_type := dict_get params "text_to_type" in
  if is_None text_to_type then
    ret (PDict (dict_literal
           [("status", PStr "error"); ("message", PStr "Missing text_to_type.")]))
  else safe_computer_action "type" text_to_type PNone.

Definition handle_keyboard_press_key (params : gmap string pyval) : M (state W) pyval :=
  let key_to_press := dict_get params "key_to_press" in
  if is_None key_to_press then
    ret (PDict (dict_literal
           [("status", PStr "error"); ("message", PStr "Missing key_to_press.")]))
  else safe_computer_action "key" key_to_press PNone.

Definition handle_get_cursor_position (params : gmap string pyval) : M (state W) pyval :=
  safe_computer_action "cursor_position" PNone PNone.

Definition handle_wait_seconds (params : gmap string pyval) : M (state W) pyval :=
  let duration := dict_get_default params "duration" (PFloat (S754_zero false)) in
  let* positive := lift (gt_zero duration) in
  if (positive : bool) then
    let* _ := await_sleep duration in
    ret (PDict (dict_literal
           [("status", PStr "success");
            ("output", PStr ("Waited for " ++ py_str duration ++ " seconds."))]))
  else safe_computer_action "wait" PNone PNone.

End Handlers.

(** The envelopes, as the handlers build them. *)
Definition error_envelope (message : string) : pyval :=
  PDict (dict_literal [("status", PStr "error"); ("message", PStr message)]).

Definition success_envelope (out : pyval) (image : option pyval) : pyval :=
  PDict (dict_literal
    [("status", PStr "success"); ("output", out);
     ("base64_image", default PNone image)]).

(** A backend to run the handlers on: it accepts the pointer and keyboard
    actions and rejects a coordinate that is not a pair of integers, as the
    real tool does, counting the calls it receives. *)
Definition sample_backend (c : call) (n : nat) : result tool_result * nat :=
  match coordinate c with
  | PNone | PTuple [PInt _; PInt _] =>
      (Ok (mk_tool_result (PStr ("done " ++ action c)) None), S n)
  | _ => (Raise (mk_exn ToolError "coordinate must be a tuple of length 2"), S n)
  end.

#[export] Instance sample_runtime : Runtime nat := {|
  computer_tool_instance := sample_backend;
  asyncio_sleep := fun _ n => n;
  repr_value := fun _ => "?"
|}.

Definition s0 : state nat := mk_state 0%nat [].

(** The entry points that the registry exposes, and the handler behind
    each name. *)
Inductive entry_point : Type :=
| MouseMove | MouseClick | MouseDrag | KeyboardType | KeyboardPressKey
| GetCursorPosition | WaitSeconds.

Definition handler_of {W} `{Runtime W} (ep : entry_point)
    : gmap string pyval -> M (state W) pyval :=
  match ep with
  | MouseMove => handle_mouse_move
  | MouseClick => handle_mouse_click
  | MouseDrag => handle_mouse_drag
  | KeyboardType => handle_keyboard_type
  | KeyboardPressKey => handle_keyboard_press_key
  | GetCursorPosition => handle_get_cursor_position
  | WaitSeconds => handle_wait_seconds
  end.

(** The table of required parameters, as the specification lists it. *)
Definition spec_required_fields (ep : entry_point) : list string :=
  match ep with
  | MouseMove | MouseDrag => ["x"; "y"]
  | KeyboardType => ["text_to_type"]
  | KeyboardPressKey => ["key_to_press"]
  | MouseClick | GetCursorPosition | WaitSeconds => []
  end.

(** The click table, as the specification lists it. *)
Definition spec_click_table (button click_type : string) : option string :=
  if bool_decide (button = "left" ∧ click_type = "click") then Some "left_click"
  else if bool_decide (button = "right" ∧ click_type = "click") then Some "right_click"
  else if bool_decide (button = "middle" ∧ click_type = "click") then Some "middle_click"
  else if bool_decide (button = "left" ∧ click_type = "double") then Some "double_click"
  else None.

(** The sign of a number, for the wait duration. *)
Inductive sign : Type := Positive | Zero | Negative.

Definition number_sign (v : pyval) : option sign :=
  match v with
  | PBool b => Some (if b then Positive else Zero)
  | PInt z => Some (match (z ?= 0)%Z with Gt => Positive | Eq => Zero | Lt => Negative end)
  | PFloat (S754_zero _) => Some Zero
  | PFloat (S754_infinity neg) | PFloat (S754_finite neg _ _) =>
      Some (if neg then Negative else Positive)
  | _ => None
  end.

(** A run from [s] to [s'] in which the backend was not called: the trace
    grew by sleeps only. *)
Definition no_backend_call {W} (s s' : state W) : Prop :=
  exists evs, trace s' = (trace s ++ evs)%list
              /\ Forall (fun ev => exists d, ev = Sleep d) evs.

(** The envelope that [safe_computer_action] builds from the outcome of the
    backend call. *)
Definition envelope_of (r : result tool_result) : pyval :=
  match r with
  | Ok tr => success_envelope (output tr) (base64_image tr)
  | Raise e =>
      if isinstance_exn e ToolError then error_envelope (exn_str e)
      else error_envelope ("Unexpected error in ComputerTool: " ++ exn_str e)
  end.

End Dispatcher.

(** ** googleaiclient.py: history adaptation and the generation call *)

Module Gemini.

(** [os.path.basename] (POSIX): what follows the last slash. *)
Fixpoint basename (p : string) : string :=
  match p with
  | EmptyString => EmptyString
  | String c r =>
      if Ascii.eqb c "/" then basename r
      else if contains "/" r then basename r else p
  end.

(** [v == s] for a string literal [s]. *)
Definition py_eq_str (v : pyval) (s : string) : bool :=
  match v with
  | PStr t => bool_decide (t = s)
  | _ => false
  end.

(** Truth value of an object, as [if v:] tests it. *)
Definition truthy (v : pyval) : bool :=
  match v with
  | PNone => false
  | PBool b => b
  | PInt z => negb (z =? 0)%Z
  | PFloat (S754_zero _) => false
  | PFloat _ => true
  | PStr s => negb (bool_decide (s = ""))
  | PTuple l | PList l => negb (bool_decide (l = []))
  | PDict d => negb (bool_decide (dom d = ∅))
  end.

(** [v.get(k)]: only a dict has the method. *)
Definition call_get (v : pyval) (k : string) : result pyval :=
  match v with
  | PDict d => Ok (dict_get d k)
  | _ => Raise (mk_exn AttributeError
                  ("'" ++ type_name v ++ "' object has no attribute 'get'"))
  end.

(** [d[k]] on a dict. *)
Definition subscript (d : gmap string pyval) (k : string) : result pyval :=
  match d !! k with
  | Some v => Ok v
  | None => Raise (mk_exn KeyError ("'" ++ k ++ "'"))
  end.

(** A [PIL.Image] object opened from a file. *)
Record image : Type := mk_image { image_file : string }.

(** An element of [gemini_parts]. *)
Inductive part : Type :=
| Text (v : pyval)
| Img (i : image).

(** An entry [{"role": role, "parts": gemini_parts}] of [gemini_history]. *)
Record turn : Type := mk_turn { role : pyval; parts : list part }.

(** The objects of the generation library. *)
Record generative_model : Type := mk_model {
  gm_model_name : pyval;
  gm_system_instruction : pyval
}.

Record generation_config : Type := mk_config {
  max_output_tokens : pyval;
  temperature : pyval
}.

(** [response.usage_metadata]: each count is an attribute that may be
    missing. *)
Record usage : Type := mk_usage {
  prompt_token_count : option pyval;
  candidates_token_count : option pyval
}.

(** A response: reading [.text] or [.usage_metadata] may raise. *)
Record response : Type := mk_response {
  text : result pyval;
  usage_metadata : result usage
}.

(** What the helper consumes from outside.  [is_image_path] is the
    path-shape test of the package's [utils] module, whose source is not at
    hand; the file system, the image decoder and the generation library are
    external. *)
Class Env (W : Type) : Type := {
  is_image_path : string -> bool;
  os_path_exists : string -> W -> bool;
  Image_open : string -> W -> result image * W;
  genai_configure : pyval -> W -> result unit * W;
  GenerativeModel : pyval -> pyval -> W -> result generative_model * W;
  GenerationConfig : pyval -> pyval -> W -> result generation_config * W;
  generate_content :
    generative_model -> list turn -> generation_config -> W -> result response * W;
  add_other : pyval -> pyval -> result pyval
}.

(** The state of a run: the outside world and the two local variables that
    the function returns, which the handlers of the outer [try] also see. *)
Record gstate (W : Type) : Type := mk_gstate {
  gworld : W;
  response_text : pyval;
  token_info : gmap string pyval
}.
Arguments mk_gstate {W} gworld response_text token_info.
Arguments gworld {W} g.
Arguments response_text {W} g.
Arguments token_info {W} g.

(** [for x in xs: acc = body x acc] *)
Fixpoint for_each {S A B} (xs : list A) (body : A -> B -> M S B) (acc : B) : M S B :=
  match xs with
  | [] => ret acc
  | x :: rest => let* acc' := body x acc in for_each rest body acc'
  end.

(** [copy.deepcopy] of a value is an equal value; what it does to the
    objects in memory, and the recursion limit it is subject to, are the
    subject of [Store] below. *)
Definition deepcopy (messages : pyval) : pyval := messages.

(** What [for x in v] goes through: the elements of a list or tuple, the
    characters of a string, the keys of a dict; other values are not
    iterable. *)
Definition iterate (v : pyval) : result (list pyval) :=
  match v with
  | PList items | PTuple items => Ok items
  | PStr s => Ok (map (fun c => PStr (String c EmptyString)) (list_ascii_of_string s))
  | PDict d => Ok (map (fun kv => PStr (fst kv)) (map_to_list d))
  | _ => Raise (mk_exn TypeError ("'" ++ type_name v ++ "' object is not iterable"))
  end.

Definition zero_token_info : gmap string pyval :=
  dict_literal [("input_tokens", PInt 0); ("output_tokens", PInt 0);
                ("total_tokens", PInt 0)].

Section Helper.
Context {W : Type} `{ENV : Env W}.

(** A call of an external function on the world. *)
Definition extern {A} (f : W -> result A * W) : M (gstate W) A :=
  fun s => let (r, w) := f (gworld s) in
           (r, mk_gstate w (response_text s) (token_info s)).

Definition exists_on_disk (p : string) : M (gstate W) bool :=
  fun s => (Ok (os_path_exists p (gworld s)), s).

Definition set_response_text (v : pyval) : M (gstate W) unit :=
  fun s => (Ok tt, mk_gstate (gworld s) v (token_info s)).

Definition set_token_info (d : gmap string pyval) : M (gstate W) unit :=
  fun s => (Ok tt, mk_gstate (gworld s) (response_text s) d).

(** [a + b]: integers add ([bool] being an [int]); the other types are left
    to the interpreter. *)
Definition py_add (a b : pyval) : result pyval :=
  match a, b with
  | PInt x, PInt y => Ok (PInt (x + y))
  | PInt x, PBool y => Ok (PInt (x + Z.b2z y))
  | PBool x, PInt y => Ok (PInt (Z.b2z x + y))
  | PBool x, PBool y => Ok (PInt (Z.b2z x + Z.b2z y))
  | _, _ => add_other a b
  end.

(** The image branch of the item loop (lines 72-87). *)
Definition load_image_part (item : string) (gemini_parts : list part)
    : M (gstate W) (list part) :=
  try_except
    (let* found := exists_on_disk item in
     if (found : bool) then
       let* img := extern (Image_open item) in
       ret (gemini_parts ++ [Img img])%list
     else
       ret (gemini_parts ++ [Text (PStr ("[Image not found: " ++ basename item ++ "]"))])%list)
    [(FileNotFoundError, fun _ =>
        ret (gemini_parts ++ [Text (PStr ("[Image not found: " ++ basename item ++ "]"))])%list);
     (UnidentifiedImageError, fun _ =>
        ret (gemini_parts ++ [Text (PStr ("[Unidentifiable image: " ++ basename item ++ "]"))])%list);
     (Exception, fun _ =>
        ret (gemini_parts ++ [Text (PStr ("[Error loading image: " ++ basename item ++ "]"))])%list)].

(** One round of [for item in content] (lines 68-89). *)
Definition item_step (item : pyval) (gemini_parts : list part)
    : M (gstate W) (list part) :=
  match item with
  | PDict d =>
      if py_eq_str (dict_get d "type") "text" then
        let* t := lift (subscript d "text") in
        ret (gemini_parts ++ [Text t])%list
      else ret gemini_parts
  | PStr s =>
      if is_image_path s then load_image_part s gemini_parts
      else ret (gemini_parts ++ [Text item])%list
  | _ => ret gemini_parts
  end.

(** The parts of one message (lines 66-91). *)
Definition content_parts (content : pyval) : M (gstate W) (list part) :=
  match content with
  | PList items => for_each items item_step []
  | PStr _ => ret [Text content]
  | _ => ret []
  end.

(** One round of [for msg in processed_messages] (lines 57-94);
    [continue] leaves the history as it is. *)
Definition message_step (msg : pyval) (gemini_history : list turn)
    : M (gstate W) (list turn) :=
  let* role := lift (call_get msg "role") in
  let* content := lift (call_get msg "content") in
  let remapped :=
    if py_eq_str role "assistant" then Some (PStr "model")
    else if py_eq_str role "tool" then None
    else Some role in
  match remapped with
  | None => ret gemini_history
  | Some role =>
      if negb (existsb (py_eq_str role) ["user"; "model"]) then ret gemini_history
      else
        let* gemini_parts := content_parts content in
        if bool_decide (gemini_parts = []) then ret gemini_history
        else ret (gemini_history ++ [mk_turn role gemini_parts])%list
  end.

(** The message-history adapter (lines 55-94). *)
Definition adapt_history (messages : pyval) : M (gstate W) (list turn) :=
  let processed_messages := deepcopy messages in
  let* msgs := lift (iterate processed_messages) in
  for_each msgs message_step [].

(** The token accounting (lines 107-114). *)
Definition read_usage (r : response) : M (gstate W) unit :=
  try_except
    (let* um := lift (usage_metadata r) in
     let input_tokens := default (PInt 0) (prompt_token_count um) in
     let* um' := lift (usage_metadata r) in
     let output_tokens := default (PInt 0) (candidates_token_count um') in
     let* total := lift (py_add input_tokens output_tokens) in
     set_token_info (dict_literal
       [("input_tokens", input_tokens); ("output_tokens", output_tokens);
        ("total_tokens", total)]))
    [(AttributeError, fun _ => ret tt)].

(** The body of the outer [try] (lines 42-114). *)
Definition gemini_call (messages : pyval)
    (system model_name api_key max_tokens temperature : pyval)
    : M (gstate W) unit :=
  let* _ := extern (genai_configure api_key) in
  let system_content := if truthy system then system else PNone in
  let* model := extern (GenerativeModel model_name system_content) in
  let* gemini_history := adapt_history messages in
  let* generation_config := extern (GenerationConfig max_tokens temperature) in
  let* response := extern (generate_content model gemini_history generation_config) in
  let* t := lift (text response) in
  let* _ := set_response_text t in
  read_usage response.

(** The [except] clauses of the outer [try] (lines 116-131). *)
Definition gemini_handlers : list (exn_class * (exn -> M (gstate W) unit)) :=
  [(ImportError, fun e =>
      set_response_text
        (PStr ("ImportError: Please install google-generativeai. " ++ exn_str e)));
   (AttributeError, fun e =>
      set_response_text
        (PStr ("Error setting up Gemini call (AttributeError): " ++ exn_str e ++ ".")));
   (TypeError, fun e =>
      set_response_text
        (PStr ("Type error during Gemini call (check arguments/version): "
               ++ exn_str e ++ ".")));
   (Exception, fun e =>
      set_response_text
        (PStr ("Error interacting with Gemini API: "
               ++ class_name (exn_cls e) ++ " - " ++ exn_str e)))].

(** The state in which the function starts (lines 38-39). *)
Definition initial (w : W) : gstate W := mk_gstate w (PStr "") zero_token_info.

Definition run_gemini_interleaved (messages : pyval)
    (system model_name api_key max_tokens temperature : pyval) (w : W)
    : result (pyval * gmap string pyval) * W :=
  match try_except
          (gemini_call messages system model_name api_key max_tokens temperature)
          gemini_handlers (initial w) with
  | (Ok _, s) => (Ok (response_text s, token_info s), gworld s)
  | (Raise e, s) => (Raise e, gworld s)
  end.

End Helper.

(** [s.endswith(suffix)] *)
Definition ends_with (suffix s : string) : bool :=
  let n := String.length suffix in
  let m := String.length s in
  ((n <=? m)%nat && String.eqb (String.substring (m - n) n s) suffix)%bool.

(** An environment to run the helper on.  Three files exist under [/data]:
    one that decodes, one that is not an image, one that may not be read.
    The library answers for one model name and knows no other. *)
Definition sample_open (p : string) (w : unit) : result image * unit :=
  if bool_decide (p = "/data/ok.png") then (Ok (mk_image p), w)
  else if bool_decide (p = "/data/bad.png") then
    (Raise (mk_exn UnidentifiedImageError "cannot identify image file '/data/bad.png'"), w)
  else if bool_decide (p = "/data/locked.png") then
    (Raise (mk_exn PermissionError "[Errno 13] Permission denied: '/data/locked.png'"), w)
  else (Raise (mk_exn FileNotFoundError ("[Errno 2] No such file or directory: '" ++ p ++ "'")), w).

Definition sample_generate (m : generative_model) (h : list turn)
    (c : generation_config) (w : unit) : result response * unit :=
  if py_eq_str (gm_model_name m) "gemini-1.5-pro-latest" then
    (Ok (mk_response (Ok (PStr "done"))
           (Ok (mk_usage (Some (PInt 12)) (Some (PInt 5))))), w)
  else (Raise (mk_exn (UserException "NotFound") "404 model is not found"), w).

#[export] Instance sample_env : Env unit := {|
  is_image_path := fun s => (ends_with ".png" s || ends_with ".jpg" s)%bool;
  os_path_exists := fun p _ =>
    bool_decide (p ∈ ["/data/ok.png"; "/data/bad.png"; "/data/locked.png"]);
  Image_open := sample_open;
  genai_configure := fun _ w => (Ok tt, w);
  GenerativeModel := fun n i w => (Ok (mk_model n i), w);
  GenerationConfig := fun m t w => (Ok (mk_config m t), w);
  generate_content := sample_generate;
  add_other := fun _ _ => Raise (mk_exn TypeError "unsupported operand type(s) for +")
|}.

(** [{"role": r, "content": c}] *)
Definition message (r : string) (c : pyval) : pyval :=
  PDict (dict_literal [("role", PStr r); ("content", c)]).

(** A turn as the adapted history may hold it. *)
Definition valid_turn (t : turn) : Prop :=
  (role t = PStr "user" \/ role t = PStr "model") /\ parts t <> [].

(** The role of a message after the remap, as the specification words it:
    [None] when the message is dropped. *)
Definition spec_remap (r : pyval) : option pyval :=
  match r with
  | PStr t =>
      if bool_decide (t = "assistant") then Some (PStr "model")
      else if bool_decide (t = "tool") then None
      else if bool_decide (t = "user" \/ t = "model") then Some (PStr t)
      else None
  | _ => None
  end.

(** The placeholder that stands for an image that failed to load. *)
Definition load_failure_placeholder (e : exn) (p : string) : string :=
  if isinstance_exn e FileNotFoundError then "[Image not found: " ++ basename p ++ "]"
  else if isinstance_exn e UnidentifiedImageError then
    "[Unidentifiable image: " ++ basename p ++ "]"
  else "[Error loading image: " ++ basename p ++ "]".

(** Messages and items that the loop can process without a lookup
    failing: a message is a dict, and an item tagged as text has its
    [text] field. *)
Definition well_formed_item (item : pyval) : Prop :=
  forall d, item = PDict d -> dict_get d "type" = PStr "text" -> is_Some (d !! "text").

Definition well_formed_message (msg : pyval) : Prop :=
  exists d, msg = PDict d /\
    forall items, dict_get d "content" = PList items -> Forall well_formed_item items.

Definition tool_message (msg : pyval) : Prop :=
  exists d, msg = PDict d /\ dict_get d "role" = PStr "tool".

(** The state after an external call moved the world to [w]. *)
Definition with_world {W} (s : gstate W) (w : W) : gstate W :=
  mk_gstate w (response_text s) (token_info s).

(** The text that a failure of the generation call is turned into. *)
Definition failure_text (e : exn) : string :=
  if isinstance_exn e ImportError then
    "ImportError: Please install google-generativeai. " ++ exn_str e
  else if isinstance_exn e AttributeError then
    "Error setting up Gemini call (AttributeError): " ++ exn_str e ++ "."
  else if isinstance_exn e TypeError then
    "Type error during Gemini call (check arguments/version): " ++ exn_str e ++ "."
  else
    "Error interacting with Gemini API: " ++ class_name (exn_cls e) ++ " - " ++ exn_str e.

(** A computation that leaves [token_info] as it found it, whatever its
    outcome; and one that does so at least when it raises. *)
Definition keeps_tokens (W : Type) {A} (m : M (gstate W) A) : Prop :=
  forall s r s', m s = (r, s') -> token_info s' = token_info s.

Definition raise_keeps_tokens (W : Type) {A} (m : M (gstate W) A) : Prop :=
  forall s e s', m s = (Raise e, s') -> token_info s' = token_info s.

End Gemini.

(** ** The message history as objects in memory

    [run_gemini_interleaved] receives a reference to the caller's list of
    messages.  Lists, dicts and images are objects in a heap and hold
    references; [None], booleans, numbers and strings are immutable and are
    kept as plain values.  The history is JSON-like data, so tuples do not
    occur.  Lines 55-94 are embedded a second time on this heap, with
    [copy.deepcopy] written out, to follow what the adapter reads, allocates
    and updates. *)

Module Store.
Import Gemini.

Abbreviation loc := positive.

Inductive value : Type :=
| VNone
| VBool (b : bool)
| VInt (z : Z)
| VFloat (f : spec_float)
| VStr (s : string)
| VRef (l : loc).

Inductive obj : Type :=
| OList (items : list value)
| ODict (entries : list (string * value))
| OImage (file : string).

Abbreviation heap := (gmap positive obj).

(** The values that an object holds. *)
Definition obj_values (o : obj) : list value :=
  match o with
  | OList items => items
  | ODict entries => map snd entries
  | OImage _ => []
  end.

Record sstate (W : Type) : Type := mk_sstate {
  sheap : heap;
  sworld : W
}.
Arguments mk_sstate {W} sheap sworld.
Arguments sheap {W} s.
Arguments sworld {W} s.

(** [d.get(k)] on the entries of a dict. *)
Definition entries_get (entries : list (string * value)) (k : string) : value :=
  match List.find (fun kv => String.eqb (fst kv) k) entries with
  | Some kv => snd kv
  | None => VNone
  end.

(** [d[k] = v] on the entries of a dict. *)
Fixpoint entries_set (entries : list (string * value)) (k : string) (v : value)
    : list (string * value) :=
  match entries with
  | [] => [(k, v)]
  | (k', v') :: rest =>
      if String.eqb k' k then (k, v) :: rest else (k', v') :: entries_set rest k v
  end.

(** [v == s] for a string literal [s]. *)
Definition value_eq_str (v : value) (s : string) : bool :=
  match v with
  | VStr t => bool_decide (t = s)
  | _ => false
  end.

Definition value_type_name (h : heap) (v : value) : string :=
  match v with
  | VNone => "NoneType"
  | VBool _ => "bool"
  | VInt _ => "int"
  | VFloat _ => "float"
  | VStr _ => "str"
  | VRef l =>
      match h !! l with
      | Some (OList _) => "list"
      | Some (ODict _) => "dict"
      | Some (OImage _) => "Image"
      | None => "object"
      end
  end.

Section Adapter.
Context {W : Type} `{ENV : Env W}.

(** Creating an object: it lives at a location that was not in use. *)
Definition alloc (o : obj) : M (sstate W) loc :=
  fun s => let l := fresh (dom (sheap s)) in
           (Ok l, mk_sstate (<[l := o]> (sheap s)) (sworld s)).

(** The object that a reference points to, if any. *)
Definition deref (v : value) : M (sstate W) (option obj) :=
  fun s => (Ok (match v with VRef l => sheap s !! l | _ => None end), s).

(** [target.append(v)] *)
Definition append (target : value) (v : value) : M (sstate W) unit :=
  fun s =>
    match target with
    | VRef l =>
        match sheap s !! l with
        | Some (OList items) =>
            (Ok tt, mk_sstate (<[l := OList (items ++ [v])]> (sheap s)) (sworld s))
        | _ => (Raise (mk_exn AttributeError "object has no attribute 'append'"), s)
        end
    | _ => (Raise (mk_exn AttributeError "object has no attribute 'append'"), s)
    end.

(** [target[k] = v] *)
Definition setitem (target : value) (k : string) (v : value) : M (sstate W) unit :=
  fun s =>
    match target with
    | VRef l =>
        match sheap s !! l with
        | Some (ODict entries) =>
            (Ok tt, mk_sstate (<[l := ODict (entries_set entries k v)]> (sheap s)) (sworld s))
        | _ => (Raise (mk_exn TypeError "object does not support item assignment"), s)
        end
    | _ => (Raise (mk_exn TypeError "object does not support item assignment"), s)
    end.

(** A call of an external function on the world. *)
Definition sextern {A} (f : W -> result A * W) : M (sstate W) A :=
  fun s => let (r, w) := f (sworld s) in (r, mk_sstate (sheap s) w).

(** [copy.deepcopy(x, memo)]: an immutable value is its own copy; an
    object met before is copied to the same copy; a list, a dict or an
    image is copied to a new object, registered in [memo] before its
    elements are copied in turn.  The recursion is as deep as the data is
    nested, and the interpreter raises [RecursionError] beyond its limit,
    here [depth]. *)
Fixpoint deepcopy (depth : nat) (x : value) (memo : gmap loc loc)
    : M (sstate W) (value * gmap loc loc) :=
  match x with
  | VRef l =>
      match memo !! l with
      | Some l' => ret (VRef l', memo)
      | None =>
          match depth with
          | O => raise (mk_exn RecursionError "maximum recursion depth exceeded")
          | S d =>
              let* o := deref x in
              match o with
              | Some (OList items) =>
                  let* y := alloc (OList []) in
                  let* memo' :=
                    for_each items
                      (fun a m =>
                         let* am := deepcopy d a m in
                         let* _ := append (VRef y) (fst am) in
                         ret (snd am))
                      (<[l := y]> memo) in
                  ret (VRef y, memo')
              | Some (ODict entries) =>
                  let* y := alloc (ODict []) in
                  let* memo' :=
                    for_each entries
                      (fun kv m =>
                         let* vm := deepcopy d (snd kv) m in
                         let* _ := setitem (VRef y) (fst kv) (fst vm) in
                         ret (snd vm))
                      (<[l := y]> memo) in
                  ret (VRef y, memo')
              | Some (OImage file) =>
                  let* y := alloc (OImage file) in
                  ret (VRef y, <[l := y]> memo)
              | None => ret (x, memo)
              end
          end
      end
  | _ => ret (x, memo)
  end.

(** [v.get(k)]: only a dict has the method. *)
Definition call_get (v : value) (k : string) : M (sstate W) value :=
  let* o := deref v in
  match o with
  | Some (ODict entries) => ret (entries_get entries k)
  | _ => fun s =>
      (Raise (mk_exn AttributeError
                ("'" ++ value_type_name (sheap s) v ++ "' object has no attribute 'get'")), s)
  end.

(** [v[k]] on a dict. *)
Definition getitem (entries : list (string * value)) (k : string) : result value :=
  match List.find (fun kv => String.eqb (fst kv) k) entries with
  | Some kv => Ok (snd kv)
  | None => Raise (mk_exn KeyError ("'" ++ k ++ "'"))
  end.

(** What [for x in v] goes through: the elements of a list, the keys of a
    dict, the characters of a string; other values are not iterable.  The
    elements are read when the loop starts: the loops of the adapter append
    to lists of their own only, never to the list they go through. *)
Definition iterate (v : value) : M (sstate W) (list value) :=
  let* o := deref v in
  match o, v with
  | Some (OList items), _ => ret items
  | Some (ODict entries), _ => ret (map (fun kv => VStr (fst kv)) entries)
  | _, VStr s => ret (map (fun c => VStr (String c EmptyString)) (list_ascii_of_string s))
  | _, _ => fun s =>
      (Raise (mk_exn TypeError
                ("'" ++ value_type_name (sheap s) v ++ "' object is not iterable")), s)
  end.

(** The image branch of the item loop (lines 72-87). *)
Definition load_image_part (item : string) (gemini_parts : value)
    : M (sstate W) unit :=
  try_except
    (let* found := (fun s => (Ok (os_path_exists item (sworld s)), s)) in
     if (found : bool) then
       let* i := sextern (Image_open item) in
       let* img := alloc (OImage (image_file i)) in
       append gemini_parts (VRef img)
     else
       append gemini_parts (VStr ("[Image not found: " ++ basename item ++ "]")))
    [(FileNotFoundError, fun _ =>
        append gemini_parts (VStr ("[Image not found: " ++ basename item ++ "]")));
     (UnidentifiedImageError, fun _ =>
        append gemini_parts (VStr ("[Unidentifiable image: " ++ basename item ++ "]")));
     (Exception, fun _ =>
        append gemini_parts (VStr ("[Error loading image: " ++ basename item ++ "]")))].

(** One round of [for item in content] (lines 68-89). *)
Definition item_step (gemini_parts : value) (item : value) (_ : unit)
    : M (sstate W) unit :=
  let* o := deref item in
  match o, item with
  | Some (ODict entries), _ =>
      if value_eq_str (entries_get entries "type") "text" then
        let* t := lift (getitem entries "text") in
        append gemini_parts t
      else ret tt
  | _, VStr s =>
      if is_image_path s then load_image_part s gemini_parts
      else append gemini_parts item
  | _, _ => ret tt
  end.

(** One round of [for msg in processed_messages] (lines 57-94). *)
Definition message_step (gemini_history : value) (msg : value) (_ : unit)
    : M (sstate W) unit :=
  let* role := call_get msg "role" in
  let* content := call_get msg "content" in
  let remapped :=
    if value_eq_str role "assistant" then Some (VStr "model")
    else if value_eq_str role "tool" then None
    else Some role in
  match remapped with
  | None => ret tt
  | Some role =>
      if negb (existsb (value_eq_str role) ["user"; "model"]) then ret tt
      else
        let* parts_loc := alloc (OList []) in
        let gemini_parts := VRef parts_loc in
        let* c := deref content in
        let* _ :=
          match c, content with
          | Some (OList items), _ => for_each items (item_step gemini_parts) tt
          | _, VStr _ => append gemini_parts content
          | _, _ => ret tt
          end in
        let* ps := deref gemini_parts in
        match ps with
        | Some (OList []) => ret tt
        | _ =>
            let* t := alloc (ODict [("role", role); ("parts", gemini_parts)]) in
            append gemini_history (VRef t)
        end
  end.

(** The message-history adapter (lines 55-94); it returns the reference
    held by [gemini_history]. *)
Definition adapt_history (depth : nat) (messages : value) : M (sstate W) value :=
  let* h := alloc (OList []) in
  let gemini_history := VRef h in
  let* copied := deepcopy depth messages ∅ in
  let processed_messages := fst copied in
  let* msgs := iterate processed_messages in
  let* _ := for_each msgs (message_step gemini_history) tt in
  ret gemini_history.

End Adapter.

(** A caller's heap: a history of two messages, the second with a list of
    two items, one of them a dict.
    [[{"role": "assistant", "content": "hi"},
      {"role": "user", "content": [{"type": "text", "text": "look"}, "/shots/missing.png"]}]] *)
Definition sample_heap : heap :=
  list_to_map
    [(1%positive, OList [VRef 2%positive; VRef 3%positive]);
     (2%positive, ODict [("role", VStr "assistant"); ("content", VStr "hi")]);
     (3%positive, ODict [("role", VStr "user"); ("content", VRef 4%positive)]);
     (4%positive, OList [VRef 5%positive; VStr "/shots/missing.png"]);
     (5%positive, ODict [("type", VStr "text"); ("text", VStr "look")])].

(** With respect to the heap [h0] of the caller: a value that is not a
    reference into [h0]; a heap whose objects outside [h0] hold no reference
    into [h0]. *)
Definition fresh_value (h0 : heap) (v : value) : Prop :=
  match v with
  | VRef l => l ∉ dom h0
  | _ => True
  end.

Definition new_objects_closed (h0 h : heap) : Prop :=
  forall l o, h !! l = Some o -> l ∉ dom h0 -> Forall (fresh_value h0) (obj_values o).

Definition memo_fresh (h0 : heap) (memo : gmap loc loc) : Prop :=
  forall l l', memo !! l = Some l' -> l' ∉ dom h0.

(** The state keeps the caller's heap and adds only closed objects. *)
Definition inv {W} (h0 : heap) (s : sstate W) : Prop :=
  h0 ⊆ sheap s /\ new_objects_closed h0 (sheap s).

(** [m] keeps [inv], whatever its outcome, and a result satisfies [Q]. *)
Definition triple (W : Type) {A} (h0 : heap) (m : M (sstate W) A) (Q : A -> Prop) : Prop :=
  forall s r s', inv h0 s -> m s = (r, s') -> inv h0 s' /\ forall a, r = Ok a -> Q a.

End Store.

(** ** mcp_server.py: notions for further properties of the handlers *)

Module DispatcherMore.
Import Dispatcher.

(** The shape of a value that a handler returns: a dict whose [status] is
    [success], with an [output], or [error], with a string [message]. *)
Definition is_envelope (v : pyval) : Prop :=
  exists d, v = PDict d /\
    ((d !! "status" = Some (PStr "success") /\ is_Some (d !! "output"))
     \/ (d !! "status" = Some (PStr "error")
         /\ exists m, d !! "message" = Some (PStr m))).

(** The events that a run from [s] to [s'] added to the trace. *)
Definition new_events {W} (s s' : state W) : list event :=
  drop (length (trace s)) (trace s').

(** The backend calls that the handlers are written to make: an action
    token of the file, with the arguments that go with it. *)
Definition pointer_call (c : call) : Prop :=
  (action c = "mouse_move" \/ action c = "left_click_drag")
  /\ text c = PNone
  /\ exists x y, coordinate c = PTuple [x; y] /\ x <> PNone /\ y <> PNone.

Definition keyboard_call (c : call) : Prop :=
  (action c = "type" \/ action c = "key")
  /\ text c <> PNone /\ coordinate c = PNone.

Definition bare_call (c : call) : Prop :=
  action c ∈ ["left_click"; "right_click"; "middle_click"; "double_click";
              "cursor_position"; "wait"]
  /\ text c = PNone /\ coordinate c = PNone.

Definition resolved_call (c : call) : Prop :=
  pointer_call c \/ keyboard_call c \/ bare_call c.

(** The keys that each handler reads from its bag. *)
Definition fields_read (ep : entry_point) : list string :=
  match ep with
  | MouseMove | MouseDrag => ["x"; "y"]
  | MouseClick => ["button"; "click_type"]
  | KeyboardType => ["text_to_type"]
  | KeyboardPressKey => ["key_to_press"]
  | GetCursorPosition => []
  | WaitSeconds => ["duration"]
  end.

(** The entry points whose body cannot raise. *)
Definition total_entry_point (ep : entry_point) : bool :=
  match ep with
  | MouseClick | WaitSeconds => false
  | _ => true
  end.

Definition is_number (v : pyval) : bool :=
  match v with
  | PBool _ | PInt _ | PFloat _ => true
  | _ => false
  end.

Definition is_str (v : pyval) : bool :=
  match v with
  | PStr _ => true
  | _ => false
  end.

Section Forms.
Context {W : Type} `{RT : Runtime W}.

(** What a run of a handler can be: a rejection of the bag, with the state
    as it was; an exception out of the handler, with the state as it was;
    one run of [safe_computer_action] on a call of the expected shape; one
    sleep followed by an envelope. *)
Inductive run_form (ep : entry_point) (params : gmap string pyval) (s : state W)
    : Prop :=
| form_reject (m : string) :
    handler_of ep params s = (Ok (error_envelope m), s) -> run_form ep params s
| form_raise (e : exn) :
    total_entry_point ep = false ->
    handler_of ep params s = (Raise e, s) -> run_form ep params s
| form_call (c : call) :
    resolved_call c ->
    handler_of ep params s =
      safe_computer_action (action c) (text c) (coordinate c) s ->
    run_form ep params s
| form_sleep (d : pyval) (v : pyval) :
    ep = WaitSeconds ->
    is_envelope v ->
    handler_of ep params s =
      (Ok v, mk_state (asyncio_sleep d (world s)) (trace s ++ [Sleep d])) ->
    run_form ep params s.

End Forms.

End DispatcherMore.

(** ** googleaiclient.py: notions for further properties of the helper *)

Module GeminiMore.
Import Gemini.

(** The calls that the helper makes to the outside, in the order made. *)
Inductive gevent : Type :=
| EvConfigure (api_key : pyval)
| EvModel (model_name system_instruction : pyval)
| EvOpen (path : string)
| EvConfig (max_tokens temperature : pyval)
| EvGenerate (m : generative_model) (contents : list turn) (c : generation_config).

Definition is_open (ev : gevent) : Prop := exists p, ev = EvOpen p.

(** An external function that also notes its call in a log. *)
Definition logged {W A} (ev : gevent) (f : W -> result A * W)
    (wl : W * list gevent) : result A * (W * list gevent) :=
  let (r, w) := f wl.1 in (r, (w, (wl.2 ++ [ev])%list)).

(** Any environment, with every call to the image decoder and to the
    generation library noted in a log beside the world. *)
Definition logging {W} (E : Env W) : Env (W * list gevent) := {|
  is_image_path := @is_image_path W E;
  os_path_exists := fun p wl => @os_path_exists W E p wl.1;
  Image_open := fun p => logged (EvOpen p) (@Image_open W E p);
  genai_configure := fun k => logged (EvConfigure k) (@genai_configure W E k);
  GenerativeModel := fun n i => logged (EvModel n i) (@GenerativeModel W E n i);
  GenerationConfig := fun m t => logged (EvConfig m t) (@GenerationConfig W E m t);
  generate_content := fun m h c =>
    logged (EvGenerate m h c) (@generate_content W E m h c);
  add_other := @add_other W E
|}.

(** The log of a state of a run in a logging environment. *)
Definition glog {W} (s : gstate (W * list gevent)) : list gevent := (gworld s).2.

(** Every run of [m] takes a state to one related to it by [R]. *)
Definition relates {S A} (R : S -> S -> Prop) (m : M S A) : Prop :=
  forall s r s', m s = (r, s') -> R s s'.

(** From [s] to [s'] the log grew by events that satisfy [P]. *)
Definition log_grows {W} (P : gevent -> Prop) (s s' : gstate (W * list gevent))
    : Prop :=
  exists evs, glog s' = (glog s ++ evs)%list /\ Forall P evs.

(** From [s] to [s'] the two local variables kept their values. *)
Definition same_locals {W} (s s' : gstate W) : Prop :=
  response_text s' = response_text s /\ token_info s' = token_info s.

(** An item that the item loop cannot process: tagged as text, without a
    [text] field.  A message that the message loop cannot process: not a
    dict, or a dict with an accepted role whose content list holds such an
    item. *)
Definition rejected_item (item : pyval) : Prop :=
  exists d, item = PDict d /\ dict_get d "type" = PStr "text" /\ d !! "text" = None.

Definition rejected_message (msg : pyval) : Prop :=
  (forall d, msg <> PDict d)
  \/ exists d items,
       msg = PDict d /\ is_Some (spec_remap (dict_get d "role"))
       /\ dict_get d "content" = PList items /\ Exists rejected_item items.

(** Token counts as the helper returns them: the three counters, the third
    being the sum of the first two. *)
Definition consistent_counts {W} `{Env W} (d : gmap string pyval) : Prop :=
  exists i o t,
    d = dict_literal [("input_tokens", i); ("output_tokens", o); ("total_tokens", t)]
    /\ py_add i o = Ok t.

Section Segments.
Context {W : Type} `{ENV : Env W}.

(** The text of an item that needs no file: the [text] field of a dict
    tagged as text, or a string that is not an image reference. *)
Definition plain_text (item : pyval) : option pyval :=
  match item with
  | PDict d => if py_eq_str (dict_get d "type") "text" then d !! "text" else None
  | PStr s => if is_image_path s then None else Some item
  | _ => None
  end.

(** An item that is no image reference. *)
Definition no_image_item (item : pyval) : Prop :=
  forall p, item = PStr p -> is_image_path p = false.

Definition no_image_message (msg : pyval) : Prop :=
  forall d items, msg = PDict d -> dict_get d "content" = PList items ->
                  Forall no_image_item items.

(** The outer [try] up to the response (lines 42-104). *)
Definition send_request (messages : pyval)
    (system model_name api_key max_tokens temperature : pyval)
    : M (gstate W) response :=
  let* _ := extern (genai_configure api_key) in
  let system_content := if truthy system then system else PNone in
  let* model := extern (GenerativeModel model_name system_content) in
  let* gemini_history := adapt_history messages in
  let* generation_config := extern (GenerationConfig max_tokens temperature) in
  extern (generate_content model gemini_history generation_config).

(** The outer [try] from the response on (lines 105-114). *)
Definition read_response (r : response) : M (gstate W) unit :=
  let* t := lift (text r) in
  let* _ := set_response_text t in
  read_usage r.

(** The two counts that line 108 and line 109 read, zero when missing. *)
Definition input_count (um : usage) : pyval := default (PInt 0) (prompt_token_count um).
Definition output_count (um : usage) : pyval :=
  default (PInt 0) (candidates_token_count um).

End Segments.

(** A second environment to run the helper on: the response of the
    library depends on the model asked for.  [plain] answers with counts,
    [bare] with no usage metadata at all, [partial] with one count set to
    [None]. *)
Definition shaped_generate (m : generative_model) (h : list turn)
    (c : generation_config) (w : unit) : result response * unit :=
  if py_eq_str (gm_model_name m) "plain" then
    (Ok (mk_response (Ok (PStr "done"))
           (Ok (mk_usage (Some (PInt 7)) None))), w)
  else if py_eq_str (gm_model_name m) "bare" then
    (Ok (mk_response (Ok (PStr "done"))
           (Raise (mk_exn AttributeError "'Response' object has no attribute 'usage_metadata'"))), w)
  else
    (Ok (mk_response (Ok (PStr "done"))
           (Ok (mk_usage (Some PNone) (Some (PInt 5))))), w).

Definition shaped_env : Env unit := {|
  is_image_path := fun s => (ends_with ".png" s || ends_with ".jpg" s)%bool;
  os_path_exists := fun p _ => false;
  Image_open := sample_open;
  genai_configure := fun _ w => (Ok tt, w);
  GenerativeModel := fun n i w => (Ok (mk_model n i), w);
  GenerationConfig := fun m t w => (Ok (mk_config m t), w);
  generate_content := shaped_generate;
  add_other := fun a b =>
    Raise (mk_exn TypeError
             ("unsupported operand type(s) for +: '" ++ type_name a ++ "' and '"
              ++ type_name b ++ "'"))
|}.

End GeminiMore.

(** * Properties of the dispatcher *)

Module DispatcherFacts.
Import Dispatcher.
Local Open Scope py_scope.

Lemma exception_is_root (e : exn) : isinstance_exn e Exception = true.
Proof.
  unfold isinstance_exn. apply bool_decide_eq_true.
  destruct e as [c m]; destruct c; simpl; set_solver.
Qed.

Lemma action_map_table (b c : string) :
  action_map !! (b, c) = spec_click_table b c.
Proof.
  unfold action_map, spec_click_table.
  repeat case_bool_decide;
    repeat match goal with H : _ ∧ _ |- _ => destruct H as [-> ->] end;
    try by simplify_map_eq.
  rewrite !lookup_insert_ne; [apply lookup_empty | ..];
    intros Heq; simplify_eq; tauto.
Qed.

Section Facts.
Context {W : Type} `{RT : Runtime W}.

Lemma safe_computer_action_run (a : string) (t c : pyval) (s : state W) :
  safe_computer_action a t c s =
    (Ok (envelope_of (computer_tool_instance (mk_call a t c) (world s)).1),
     mk_state (computer_tool_instance (mk_call a t c) (world s)).2
              (trace s ++ [Invoke (mk_call a t c)])).
Proof.
  unfold safe_computer_action, try_except, bind, await_computer_tool.
  destruct (computer_tool_instance (mk_call a t c) (world s)) as [[tr|e] w]; simpl.
  - reflexivity.
  - destruct (isinstance_exn e ToolError) eqn:He; simpl; [reflexivity|].
    rewrite exception_is_root. reflexivity.
Qed.

Lemma gt_zero_sign (d : pyval) (sg : sign) :
  number_sign d = Some sg ->
  gt_zero d = Ok (match sg with Positive => true | _ => false end).
Proof.
  destruct d as [ |b|z|f| | | | ]; simpl; try discriminate.
  - destruct b; intros [= <-]; reflexivity.
  - intros [= <-]. f_equal. destruct (Z.compare_spec z 0); lia.
  - destruct f as [neg|neg| |neg m e]; simpl; try discriminate;
      intros [= <-]; destruct neg; reflexivity.
Qed.

Lemma no_backend_call_refl (s : state W) : no_backend_call s s.
Proof. exists []. split; [by rewrite app_nil_r | constructor]. Qed.

(** A run of an entry point either is one run of [safe_computer_action] or
    does not call the backend. *)
Lemma handler_calls_through_wrapper (ep : entry_point) (params : gmap string pyval)
    (s : state W) :
  (exists a t c, handler_of ep params s = safe_computer_action a t c s)
  \/ no_backend_call s (handler_of ep params s).2.
Proof.
  destruct ep; simpl.
  - unfold handle_mouse_move. destruct (_ || _)%bool;
      [right; apply no_backend_call_refl | left; by eexists _, _, _].
  - unfold handle_mouse_click, bind, lift.
    destruct (str_lower _) as [b|e]; simpl; [|right; apply no_backend_call_refl].
    destruct (str_lower _) as [c|e]; simpl; [|right; apply no_backend_call_refl].
    destruct (action_map !! (b, c)) as [a|]; [|right; apply no_backend_call_refl].
    case_bool_decide; [right; apply no_backend_call_refl | left; by eexists _, _, _].
  - unfold handle_mouse_drag. destruct (_ || _)%bool;
      [right; apply no_backend_call_refl | left; by eexists _, _, _].
  - unfold handle_keyboard_type. destruct (is_None _);
      [right; apply no_backend_call_refl | left; by eexists _, _, _].
  - unfold handle_keyboard_press_key. destruct (is_None _);
      [right; apply no_backend_call_refl | left; by eexists _, _, _].
  - left; by eexists _, _, _.
  - unfold handle_wait_seconds, bind, lift.
    destruct (gt_zero _) as [[|]|e]; simpl.
    + right. eexists [Sleep _]. split; [reflexivity|]. repeat constructor. by eexists.
    + left; by eexists _, _, _.
    + right; apply no_backend_call_refl.
Qed.

(** C3: an entry point reaches the backend through [safe_computer_action]
    only, and the envelope of that call follows from the outcome of the
    backend alone, in three disjoint cases: a [ToolError] gives an error
    envelope with the error's own message; any other exception gives an
    error envelope whose message wraps the failure text; a normal return
    gives a success envelope with the output and the image (or [None]).  In
    every case the call returns an envelope and raises nothing, after
    exactly one call of the backend. *)
Theorem safe_computer_action_three_way (a : string) (t c : pyval) (s : state W) :
  let k := mk_call a t c in
  let s' := mk_state (computer_tool_instance k (world s)).2 (trace s ++ [Invoke k]) in
  match (computer_tool_instance k (world s)).1 with
  | Raise e =>
      if isinstance_exn e ToolError
      then safe_computer_action a t c s = (Ok (error_envelope (exn_str e)), s')
      else safe_computer_action a t c s =
             (Ok (error_envelope ("Unexpected error in ComputerTool: " ++ exn_str e)), s')
  | Ok tr =>
      safe_computer_action a t c s =
        (Ok (success_envelope (output tr) (base64_image tr)), s')
  end
  /\ forall ep params,
       (exists a' t' c', handler_of ep params s = safe_computer_action a' t' c' s)
       \/ no_backend_call s (handler_of ep params s).2.
Proof.
  intros k s'. split; [|intros; apply handler_calls_through_wrapper].
  rewrite safe_computer_action_run. subst k s'.
  destruct (computer_tool_instance (mk_call a t c) (world s)) as [[tr|e] w]; simpl.
  - reflexivity.
  - destruct (isinstance_exn e ToolError); reflexivity.
Qed.

(** C2: an entry point whose required field is absent from the bag returns
    an error envelope whose message names the field, and leaves the state
    as it was: the backend has not been called. *)
Theorem missing_field_is_error (ep : entry_point) (params : gmap string pyval)
    (field : string) (s : state W) :
  field ∈ spec_required_fields ep ->
  params !! field = None ->
  exists message,
    handler_of ep params s = (Ok (error_envelope message), s)
    /\ contains field message = true.
Proof.
  intros Hin Hnone.
  destruct ep; simpl in Hin; set_unfold in Hin;
    repeat match goal with H : _ \/ _ |- _ => destruct H end;
    subst; try contradiction; simpl;
    unfold handle_mouse_move, handle_mouse_drag, handle_keyboard_type,
      handle_keyboard_press_key, dict_get; rewrite Hnone; simpl;
    try rewrite orb_true_r;
    (eexists; split; [reflexivity | reflexivity]).
Qed.

(** C1 (amended): when the button and the click type of the bag (or their
    defaults) are strings, the handler looks their lower-cased pair up in
    the click table; a pair of the table leads to one backend call with its
    token and to the envelope of that call, any other pair to an error
    envelope naming the pair, with the backend not called. *)
Theorem mouse_click_resolves (params : gmap string pyval) (b c : string)
    (s : state W) :
  dict_get_default params "button" (PStr "left") = PStr b ->
  dict_get_default params "click_type" (PStr "click") = PStr c ->
  match spec_click_table (lower b) (lower c) with
  | Some token =>
      handle_mouse_click params s = safe_computer_action token PNone PNone s
      /\ trace (handle_mouse_click params s).2
         = (trace s ++ [Invoke (mk_call token PNone PNone)])%list
  | None =>
      handle_mouse_click params s =
        (Ok (error_envelope ("Unsupported button/click_type: " ++ b ++ "/" ++ c)), s)
  end.
Proof.
  intros Hb Hc. unfold handle_mouse_click. rewrite Hb, Hc.
  unfold bind, lift; simpl. rewrite action_map_table.
  unfold spec_click_table.
  repeat case_bool_decide; simpl; repeat case_bool_decide; try discriminate;
    first [ reflexivity
          | split; [reflexivity | rewrite safe_computer_action_run; reflexivity] ].
Qed.

(** C5: a duration that is a strictly positive number makes the handler
    sleep for it and return a success envelope describing the wait; the
    only effect is the sleep, the backend is not called.  With no duration,
    or one that is zero or negative, the handler is the backend call of the
    [wait] action and returns its envelope. *)
Theorem wait_seconds_cases (params : gmap string pyval) (s : state W) :
  match params !! "duration" with
  | Some d =>
      match number_sign d with
      | Some Positive =>
          handle_wait_seconds params s =
            (Ok (PDict (dict_literal
                   [("status", PStr "success");
                    ("output", PStr ("Waited for " ++ py_str d ++ " seconds."))])),
             mk_state (asyncio_sleep d (world s)) (trace s ++ [Sleep d]))
      | Some Zero | Some Negative =>
          handle_wait_seconds params s = safe_computer_action "wait" PNone PNone s
      | None => True
      end
  | None =>
      handle_wait_seconds params s = safe_computer_action "wait" PNone PNone s
  end.
Proof.
  unfold handle_wait_seconds, dict_get_default.
  destruct (params !! "duration") as [d|] eqn:Hd; simpl.
  - destruct (number_sign d) as [sg|] eqn:Hs; [|exact I].
    apply gt_zero_sign in Hs. unfold bind, lift. rewrite Hs.
    destruct sg; reflexivity.
  - reflexivity.
Qed.

(** C9 (amended): the entry points test their required fields for presence
    only.  Whatever the types of the values, once they are present and not
    [None] the handler calls the backend once, with the values unchanged,
    and returns the envelope of that call. *)
Theorem present_fields_reach_backend (params : gmap string pyval) (s : state W) :
  (forall x y, params !! "x" = Some x -> params !! "y" = Some y ->
     x <> PNone -> y <> PNone ->
     handle_mouse_move params s
       = safe_computer_action "mouse_move" PNone (PTuple [x; y]) s
     /\ trace (handle_mouse_move params s).2
        = (trace s ++ [Invoke (mk_call "mouse_move" PNone (PTuple [x; y]))])%list
     /\ handle_mouse_drag params s
        = safe_computer_action "left_click_drag" PNone (PTuple [x; y]) s
     /\ trace (handle_mouse_drag params s).2
        = (trace s ++ [Invoke (mk_call "left_click_drag" PNone (PTuple [x; y]))])%list)
  /\ (forall v, params !! "text_to_type" = Some v -> v <> PNone ->
       handle_keyboard_type params s = safe_computer_action "type" v PNone s
       /\ trace (handle_keyboard_type params s).2
          = (trace s ++ [Invoke (mk_call "type" v PNone)])%list)
  /\ (forall v, params !! "key_to_press" = Some v -> v <> PNone ->
       handle_keyboard_press_key params s = safe_computer_action "key" v PNone s
       /\ trace (handle_keyboard_press_key params s).2
          = (trace s ++ [Invoke (mk_call "key" v PNone)])%list).
Proof.
  assert (Hnn : forall v, v <> PNone -> is_None v = false)
    by (intros [] ?; simpl; congruence).
  repeat split;
    unfold handle_mouse_move, handle_mouse_drag, handle_keyboard_type,
      handle_keyboard_press_key, dict_get;
    repeat match goal with H : _ !! _ = Some _ |- _ => rewrite H; clear H end;
    simpl; rewrite ?Hnn by assumption; simpl;
    rewrite ?safe_computer_action_run; reflexivity.
Qed.

End Facts.

(** Runs on the sample backend. *)

Example lower_mixed_case : lower "LeFt-Click 9" = "left-click 9".
Proof. reflexivity. Qed.

Example str_of_int_samples :
  str_of_int 0 = "0" /\ str_of_int 250 = "250" /\ str_of_int (-12) = "-12".
Proof. repeat split; reflexivity. Qed.

Example mouse_click_defaults :
  handle_mouse_click ∅ s0
  = (Ok (success_envelope (PStr "done left_click") None),
     mk_state 1%nat [Invoke (mk_call "left_click" PNone PNone)]).
Proof. reflexivity. Qed.

Example mouse_click_unsupported :
  handle_mouse_click (<["button" := PStr "Right"]> (<["click_type" := PStr "double"]> ∅)) s0
  = (Ok (error_envelope "Unsupported button/click_type: Right/double"), s0).
Proof. reflexivity. Qed.

(** 2.5 seconds: the float [5 * 2^-1]. *)
Example wait_two_and_a_half :
  handle_wait_seconds (<["duration" := PFloat (S754_finite false 5 (-1))]> ∅) s0
  = (Ok (PDict (dict_literal [("status", PStr "success");
                              ("output", PStr "Waited for ? seconds.")])),
     mk_state 0%nat [Sleep (PFloat (S754_finite false 5 (-1)))]).
Proof. reflexivity. Qed.

Example wait_zero_or_absent :
  handle_wait_seconds (<["duration" := PInt 0]> ∅) s0
  = (Ok (success_envelope (PStr "done wait") None),
     mk_state 1%nat [Invoke (mk_call "wait" PNone PNone)])
  /\ handle_wait_seconds ∅ s0
     = (Ok (success_envelope (PStr "done wait") None),
        mk_state 1%nat [Invoke (mk_call "wait" PNone PNone)])
  /\ handle_wait_seconds (<["duration" := PFloat (S754_finite true 3 0)]> ∅) s0
     = (Ok (success_envelope (PStr "done wait") None),
        mk_state 1%nat [Invoke (mk_call "wait" PNone PNone)]).
Proof. repeat split; reflexivity. Qed.

Lemma missing_field_is_error_witness :
  exists message,
    handle_mouse_drag (<["x" := PInt 4]> ∅) s0 = (Ok (error_envelope message), s0)
    /\ contains "y" message = true.
Proof.
  apply (missing_field_is_error MouseDrag (<["x" := PInt 4]> ∅) "y" s0).
  - simpl. set_solver.
  - reflexivity.
Defined.

Lemma mouse_click_resolves_witness :
  handle_mouse_click (<["button" := PStr "LEFT"]> (<["click_type" := PStr "Double"]> ∅)) s0
    = safe_computer_action "double_click" PNone PNone s0
  /\ trace (handle_mouse_click
              (<["button" := PStr "LEFT"]> (<["click_type" := PStr "Double"]> ∅)) s0).2
     = [Invoke (mk_call "double_click" PNone PNone)].
Proof.
  apply (mouse_click_resolves
           (<["button" := PStr "LEFT"]> (<["click_type" := PStr "Double"]> ∅))
           "LEFT" "Double" s0); reflexivity.
Defined.

(** C1, counterexample: a bag whose button is a number.  The handler calls
    [lower] on it, which raises; no envelope is returned. *)
Lemma mouse_click_non_string_raises :
  handle_mouse_click (<["button" := PInt 5]> ∅) s0
  = (Raise (mk_exn AttributeError "'int' object has no attribute 'lower'"), s0).
Proof. reflexivity. Qed.

(** C9, counterexample: ill-typed values that are present.  A string for
    [x] reaches the backend inside the coordinate, and the error returned is
    the backend's own; a number for [text_to_type] reaches the backend as
    the text and the call succeeds. *)
Lemma ill_typed_field_reaches_backend :
  handle_mouse_move (<["x" := PStr "abc"]> (<["y" := PInt 1]> ∅)) s0
  = (Ok (error_envelope "coordinate must be a tuple of length 2"),
     mk_state 1%nat [Invoke (mk_call "mouse_move" PNone (PTuple [PStr "abc"; PInt 1]))])
  /\ handle_keyboard_type (<["text_to_type" := PInt 5]> ∅) s0
     = (Ok (success_envelope (PStr "done type") None),
        mk_state 1%nat [Invoke (mk_call "type" (PInt 5) PNone)]).
Proof. split; reflexivity. Qed.

Lemma present_fields_reach_backend_witness :
  handle_keyboard_type (<["text_to_type" := PInt 5]> ∅) s0
    = safe_computer_action "type" (PInt 5) PNone s0
  /\ trace (handle_keyboard_type (<["text_to_type" := PInt 5]> ∅) s0).2
     = (trace s0 ++ [Invoke (mk_call "type" (PInt 5) PNone)])%list.
Proof.
  apply (proj1 (proj2 (present_fields_reach_backend (<["text_to_type" := PInt 5]> ∅) s0))
           (PInt 5)); [reflexivity | discriminate].
Defined.

End DispatcherFacts.

(** * Properties of the Gemini helper *)

Module GeminiFacts.
Import Gemini.
Local Open Scope py_scope.

Lemma py_eq_str_true (v : pyval) (s : string) :
  py_eq_str v s = true <-> v = PStr s.
Proof.
  destruct v; simpl; try (split; [discriminate | intros [=]]).
  rewrite bool_decide_eq_true. split; [intros ->; reflexivity | intros [=]; assumption].
Qed.

Lemma basename_no_slash (p : string) : contains "/" (basename p) = false.
Proof.
  induction p as [|c r IH]; [reflexivity|].
  cbn [basename]. destruct (Ascii.eqb c "/") eqn:Hc; [exact IH|].
  destruct (contains "/" r) eqn:Hr; [exact IH|].
  cbn [contains String.prefix].
  destruct (ascii_dec "/" c) as [<-|_]; [discriminate Hc|exact Hr].
Qed.

Lemma basename_is_suffix (p : string) : exists dir, p = dir ++ basename p.
Proof.
  induction p as [|c r [dir IH]]; [by exists ""|].
  cbn [basename]. destruct (Ascii.eqb c "/").
  - exists (String c dir). rewrite IH at 1. reflexivity.
  - destruct (contains "/" r).
    + exists (String c dir). rewrite IH at 1. reflexivity.
    + by exists "".
Qed.

Section Facts.
Context {W : Type} `{ENV : Env W}.

(** *** Loops *)

Lemma for_each_invariant {A B} (P : B -> gstate W -> Prop)
    (body : A -> B -> M (gstate W) B) (xs : list A) :
  (forall x acc s acc' s', P acc s -> body x acc s = (Ok acc', s') -> P acc' s') ->
  forall acc s acc' s',
    P acc s -> for_each xs body acc s = (Ok acc', s') -> P acc' s'.
Proof.
  intros Hbody. induction xs as [|x xs IH]; intros acc s acc' s' HP Hrun; simpl in Hrun.
  - unfold ret in Hrun. by simplify_eq.
  - unfold bind in Hrun.
    destruct (body x acc s) as [[acc1|e] s1] eqn:Hb; [|discriminate].
    eapply IH; [|exact Hrun]. eapply Hbody; eauto.
Qed.

Lemma for_each_total {A B} (Q : A -> Prop) (body : A -> B -> M (gstate W) B)
    (xs : list A) :
  (forall x acc s, Q x -> exists acc' s', body x acc s = (Ok acc', s')) ->
  Forall Q xs ->
  forall acc s, exists acc' s', for_each xs body acc s = (Ok acc', s').
Proof.
  intros Hbody HQ. induction HQ as [|x xs Hx _ IH]; intros acc s; simpl.
  - by eexists _, _.
  - unfold bind. destruct (Hbody x acc s Hx) as (acc1 & s1 & ->). apply IH.
Qed.

(** *** Items *)

Lemma load_image_part_run (p : string) (ps : list part) (s : gstate W) :
  load_image_part p ps s =
    if os_path_exists p (gworld s) then
      match Image_open p (gworld s) with
      | (Ok img, w) => (Ok (ps ++ [Img img])%list, with_world s w)
      | (Raise e, w) =>
          (Ok (ps ++ [Text (PStr (load_failure_placeholder e p))])%list, with_world s w)
      end
    else (Ok (ps ++ [Text (PStr ("[Image not found: " ++ basename p ++ "]"))])%list, s).
Proof.
  unfold load_image_part, try_except, bind, exists_on_disk, extern,
    load_failure_placeholder, with_world.
  destruct (os_path_exists p (gworld s)); [|reflexivity].
  destruct (Image_open p (gworld s)) as [[img|e] w]; simpl; [reflexivity|].
  destruct (isinstance_exn e FileNotFoundError); simpl; [reflexivity|].
  destruct (isinstance_exn e UnidentifiedImageError); simpl; [reflexivity|].
  rewrite DispatcherFacts.exception_is_root. reflexivity.
Qed.

Lemma load_image_part_appends (p : string) (ps : list part) (s : gstate W) :
  exists x w, load_image_part p ps s = (Ok (ps ++ [x])%list, with_world s w).
Proof.
  rewrite load_image_part_run.
  destruct (os_path_exists p (gworld s)).
  - destruct (Image_open p (gworld s)) as [[img|e] w]; by eexists _, _.
  - exists (Text (PStr ("[Image not found: " ++ basename p ++ "]"))), (gworld s).
    by destruct s.
Qed.

Lemma item_step_skips (item : pyval) (ps : list part) (s : gstate W) :
  (forall t, item <> PStr t) ->
  (forall d, item = PDict d -> dict_get d "type" <> PStr "text") ->
  item_step item ps s = (Ok ps, s).
Proof.
  intros Hstr Hdict. destruct item; simpl; try reflexivity.
  - by destruct (Hstr s0).
  - destruct (py_eq_str (dict_get d "type") "text") eqn:Ht; [|reflexivity].
    apply py_eq_str_true in Ht. by destruct (Hdict d eq_refl).
Qed.

Lemma item_step_total (item : pyval) (ps : list part) (s : gstate W) :
  well_formed_item item ->
  exists ps' s', item_step item ps s = (Ok ps', s').
Proof.
  intros Hwf. destruct item; simpl; try by eexists _, _.
  - destruct (is_image_path s0); [|by eexists _, _].
    destruct (load_image_part_appends s0 ps s) as (x & w & ->). by eexists _, _.
  - destruct (py_eq_str (dict_get d "type") "text") eqn:Ht; [|by eexists _, _].
    apply py_eq_str_true in Ht. destruct (Hwf d eq_refl Ht) as [v Hv].
    unfold bind, lift, subscript. rewrite Hv. by eexists _, _.
Qed.

(** *** Messages *)

Lemma content_parts_total (content : pyval) (s : gstate W) :
  (forall items, content = PList items -> Forall well_formed_item items) ->
  exists ps s', content_parts content s = (Ok ps, s').
Proof.
  intros Hwf. destruct content; simpl; try by eexists _, _.
  eapply for_each_total; [|by apply Hwf].
  intros x acc s1 Hx. by apply item_step_total.
Qed.

Lemma message_step_dict (d : gmap string pyval) (h : list turn) (s : gstate W) :
  message_step (PDict d) h s =
    match spec_remap (dict_get d "role") with
    | None => (Ok h, s)
    | Some r =>
        match content_parts (dict_get d "content") s with
        | (Ok ps, s') =>
            (Ok (if bool_decide (ps = []) then h else (h ++ [mk_turn r ps])%list), s')
        | (Raise e, s') => (Raise e, s')
        end
    end.
Proof.
  unfold message_step, bind, lift; simpl.
  destruct (dict_get d "role") as [ | | | |r| | | ]; simpl; try reflexivity.
  assert (Hparts : forall r0 : pyval,
    (let* gemini_parts := content_parts (dict_get d "content") in
     if bool_decide (gemini_parts = []) then ret h
     else ret (h ++ [mk_turn r0 gemini_parts])%list) s =
    match content_parts (dict_get d "content") s with
    | (Ok ps, s') =>
        (Ok (if bool_decide (ps = []) then h else (h ++ [mk_turn r0 ps])%list), s')
    | (Raise e, s') => (Raise e, s')
    end).
  { intros r0. unfold bind.
    destruct (content_parts _ s) as [[ps|e] s']; [by case_bool_decide | done]. }
  destruct (decide (r = "assistant")) as [->|Ha]; [exact (Hparts _)|].
  rewrite !(bool_decide_eq_false_2 (r = "assistant")) by done.
  destruct (decide (r = "tool")) as [->|Ht]; [reflexivity|].
  rewrite !(bool_decide_eq_false_2 (r = "tool")) by done.
  destruct (decide (r = "user")) as [->|Hu]; [exact (Hparts _)|].
  destruct (decide (r = "model")) as [->|Hm]; [exact (Hparts _)|].
  unfold py_eq_str.
  rewrite (bool_decide_eq_false_2 (r = "user")), (bool_decide_eq_false_2 (r = "model")),
    (bool_decide_eq_false_2 (_ \/ _)) by tauto.
  reflexivity.
Qed.

Lemma message_step_valid (msg : pyval) (h h' : list turn) (s s' : gstate W) :
  Forall valid_turn h ->
  message_step msg h s = (Ok h', s') ->
  Forall valid_turn h'.
Proof.
  intros Hh Hrun.
  destruct msg;
    try (unfold message_step, bind, lift in Hrun; simpl in Hrun; discriminate).
  rewrite message_step_dict in Hrun.
  destruct (spec_remap (dict_get d "role")) as [r|] eqn:Hr; [|by simplify_eq].
  assert (r = PStr "user" \/ r = PStr "model") as Hrole.
  { unfold spec_remap in Hr. destruct (dict_get d "role"); try discriminate.
    repeat case_bool_decide; simplify_eq; auto.
    match goal with H : _ \/ _ |- _ => destruct H as [->| ->]; auto end. }
  destruct (content_parts _ s) as [[ps|e] s1]; [|discriminate].
  case_bool_decide; simplify_eq; [done|].
  apply Forall_app; split; [done|].
  constructor; [|constructor]. split; simpl; auto.
Qed.

Lemma adapt_history_valid (messages : pyval) (s s' : gstate W) (h : list turn) :
  adapt_history messages s = (Ok h, s') -> Forall valid_turn h.
Proof.
  unfold adapt_history, deepcopy, bind, lift.
  destruct (iterate messages) as [msgs|e]; [|discriminate]. intros Hrun.
  apply (for_each_invariant (fun acc _ => Forall valid_turn acc) message_step msgs)
    with (acc := []) (s := s) (s' := s'); [|constructor|exact Hrun].
  intros x acc s1 acc' s1' Hacc Hstep. eapply message_step_valid; eauto.
Qed.

Lemma adapt_history_tool_only (msgs : list pyval) (s : gstate W) :
  Forall tool_message msgs -> adapt_history (PList msgs) s = (Ok [], s).
Proof.
  unfold adapt_history, deepcopy, bind, lift; simpl.
  intros Hall. generalize (@nil turn).
  induction Hall as [|m ms (d & -> & Hrole) _ IH]; intros acc; simpl; [reflexivity|].
  unfold bind at 1. rewrite message_step_dict, Hrole. simpl. apply IH.
Qed.

Lemma adapt_history_total (msgs : list pyval) (s : gstate W) :
  Forall well_formed_message msgs ->
  exists h s', adapt_history (PList msgs) s = (Ok h, s').
Proof.
  intros Hwf. unfold adapt_history, deepcopy, bind, lift; simpl.
  eapply for_each_total; [|exact Hwf].
  intros m acc s1 (d & -> & Hitems). rewrite message_step_dict.
  destruct (spec_remap (dict_get d "role")); [|by eexists _, _].
  destruct (content_parts_total (dict_get d "content") s1 Hitems) as (ps & s2 & ->).
  by eexists _, _.
Qed.

(** C4: the adapter maps the role [assistant] to [model], leaves out a
    message whose role is [tool] without looking at its content, leaves out
    a message whose role is then neither [user] nor [model], and leaves out
    a message that yields no part.  A conversation of tool messages adapts
    to the empty history; every turn of an adapted history has the role
    [user] or [model] and at least one part; and the adapter returns a
    history for every conversation of well-formed messages. *)
Theorem adapt_history_roles_and_parts (msgs : list pyval) (s : gstate W) :
  (forall d h,
     message_step (PDict d) h s =
       match spec_remap (dict_get d "role") with
       | None => (Ok h, s)
       | Some r =>
           match content_parts (dict_get d "content") s with
           | (Ok [], s') => (Ok h, s')
           | (Ok ps, s') => (Ok (h ++ [mk_turn r ps])%list, s')
           | (Raise e, s') => (Raise e, s')
           end
       end)
  /\ spec_remap (PStr "assistant") = Some (PStr "model")
  /\ spec_remap (PStr "tool") = None
  /\ (Forall tool_message msgs -> adapt_history (PList msgs) s = (Ok [], s))
  /\ (forall h s', adapt_history (PList msgs) s = (Ok h, s') -> Forall valid_turn h)
  /\ (Forall well_formed_message msgs ->
       exists h s', adapt_history (PList msgs) s = (Ok h, s')).
Proof.
  split; [|split; [reflexivity|split; [reflexivity|split; [|split]]]].
  - intros d h. rewrite message_step_dict.
    destruct (spec_remap (dict_get d "role")); [|reflexivity].
    destruct (content_parts _ s) as [[[|x ps]|e] s1]; reflexivity.
  - apply adapt_history_tool_only.
  - intros h s'. apply adapt_history_valid.
  - apply adapt_history_total.
Qed.

(** C7 (amended): an image reference never makes the adapter raise; it adds
    exactly one part.  When the path does not exist the part is the text
    [[Image not found: B]] where [B] is the base name of the path, a suffix
    of it without any directory separator.  When the file exists and opens,
    the part is the image.  When opening fails, the part is
    [[Image not found: B]] for a file-not-found error,
    [[Unidentifiable image: B]] for a file that is not an image, and
    [[Error loading image: B]] for any other failure: the placeholder
    depends on the base name only, not on the failure. *)
Theorem image_reference_placeholders (p : string) (ps : list part) (s : gstate W) :
  is_image_path p = true ->
  contains "/" (basename p) = false
  /\ (exists dir, p = dir ++ basename p)
  /\ item_step (PStr p) ps s =
       if os_path_exists p (gworld s) then
         match Image_open p (gworld s) with
         | (Ok img, w) => (Ok (ps ++ [Img img])%list, with_world s w)
         | (Raise e, w) =>
             (Ok (ps ++ [Text (PStr (
                   if isinstance_exn e FileNotFoundError then
                     "[Image not found: " ++ basename p ++ "]"
                   else if isinstance_exn e UnidentifiedImageError then
                     "[Unidentifiable image: " ++ basename p ++ "]"
                   else "[Error loading image: " ++ basename p ++ "]"))])%list,
              with_world s w)
         end
       else
         (Ok (ps ++ [Text (PStr ("[Image not found: " ++ basename p ++ "]"))])%list, s).
Proof.
  intros Himg. split; [apply basename_no_slash|]. split; [apply basename_is_suffix|].
  simpl. rewrite Himg. apply load_image_part_run.
Qed.

(** C10: an item of a content list that is neither a string nor a dict
    tagged [text] adds nothing and raises nothing; a message whose content
    is neither a string nor a list is left out of the history. *)
Theorem unrecognized_content_is_skipped (s : gstate W) :
  (forall item ps,
     (forall t, item <> PStr t) ->
     (forall d, item = PDict d -> dict_get d "type" <> PStr "text") ->
     item_step item ps s = (Ok ps, s))
  /\ (forall d h,
       (forall t, dict_get d "content" <> PStr t) ->
       (forall items, dict_get d "content" <> PList items) ->
       content_parts (dict_get d "content") s = (Ok [], s)
       /\ message_step (PDict d) h s = (Ok h, s)).
Proof.
  split.
  - intros item ps. apply item_step_skips.
  - intros d h Hstr Hlist.
    assert (Hc : content_parts (dict_get d "content") s = (Ok [], s)).
    { destruct (dict_get d "content") as [ | | | |t|l|l| ]; try reflexivity.
      - by destruct (Hstr t).
      - by destruct (Hlist l). }
    split; [exact Hc|]. rewrite message_step_dict, Hc.
    by destruct (spec_remap (dict_get d "role")).
Qed.

(** *** The generation call *)

Lemma keeps_ret {A} (a : A) : keeps_tokens W (ret a).
Proof. intros s r s' [= _ <-]. reflexivity. Qed.

Lemma keeps_lift {A} (r : result A) : keeps_tokens W (lift r).
Proof. intros s r' s' [= _ <-]. reflexivity. Qed.

Lemma keeps_extern {A} (f : W -> result A * W) : keeps_tokens W (extern f).
Proof.
  intros s r s'. unfold extern. destruct (f (gworld s)). intros [= _ <-]. reflexivity.
Qed.

Lemma keeps_exists_on_disk (p : string) : keeps_tokens W (exists_on_disk p).
Proof. intros s r s' [= _ <-]. reflexivity. Qed.

Lemma keeps_set_response_text (v : pyval) : keeps_tokens W (set_response_text v).
Proof. intros s r s' [= _ <-]. reflexivity. Qed.

Lemma keeps_bind {A B} (m : M (gstate W) A) (k : A -> M (gstate W) B) :
  keeps_tokens W m -> (forall a, keeps_tokens W (k a)) -> keeps_tokens W (bind m k).
Proof.
  intros Hm Hk s r s'. unfold bind.
  destruct (m s) as [[a|e] s1] eqn:Hms.
  - intros Hks. rewrite (Hk _ _ _ _ Hks). eapply Hm; eauto.
  - intros [= _ <-]. eapply Hm; eauto.
Qed.

Lemma keeps_try_except {A} (body : M (gstate W) A)
    (handlers : list (exn_class * (exn -> M (gstate W) A))) :
  keeps_tokens W body ->
  Forall (fun h => forall e, keeps_tokens W (snd h e)) handlers ->
  keeps_tokens W (try_except body handlers).
Proof.
  intros Hb Hh s r s'. unfold try_except.
  destruct (body s) as [[a|e] s1] eqn:Hbs.
  - intros [= _ <-]. eapply Hb; eauto.
  - destruct (List.find _ handlers) as [h|] eqn:Hf.
    + apply find_some in Hf as [Hin _].
      rewrite Forall_forall in Hh. intros Hrun.
      rewrite (Hh h (proj2 (list_elem_of_In _ _) Hin) e _ _ _ Hrun). eapply Hb; eauto.
    + intros [= _ <-]. eapply Hb; eauto.
Qed.

Lemma keeps_for_each {A B} (body : A -> B -> M (gstate W) B) (xs : list A) :
  (forall x acc, keeps_tokens W (body x acc)) ->
  forall acc, keeps_tokens W (for_each xs body acc).
Proof.
  intros Hbody. induction xs as [|x xs IH]; intros acc; simpl.
  - apply keeps_ret.
  - apply keeps_bind; [apply Hbody | intros a; apply IH].
Qed.

Create HintDb keeps.
#[local] Hint Resolve keeps_ret keeps_lift keeps_extern keeps_exists_on_disk
  keeps_set_response_text : keeps.

Ltac keeps_step :=
  first [ apply keeps_bind; [|intros ?]
        | apply keeps_try_except; [|repeat constructor; intros ?; simpl]
        | apply keeps_for_each; intros ? ?
        | solve [auto with keeps] ].

Lemma keeps_item_step (item : pyval) (ps : list part) : keeps_tokens W (item_step item ps).
Proof.
  destruct item; simpl; auto with keeps.
  - destruct (is_image_path s); [|auto with keeps].
    unfold load_image_part. repeat keeps_step.
    match goal with b : bool |- _ => destruct b end; repeat keeps_step.
  - destruct (py_eq_str _ _); repeat keeps_step.
Qed.

Lemma keeps_adapt_history (messages : pyval) :
  keeps_tokens W (adapt_history messages).
Proof.
  unfold adapt_history. apply keeps_bind; [apply keeps_lift|]. intros msgs.
  apply keeps_for_each. intros msg h.
  unfold message_step. repeat keeps_step.
  match goal with |- keeps_tokens W (match ?x with _ => _ end) => destruct x end;
    [|auto with keeps].
  match goal with |- keeps_tokens W (if ?x then _ else _) => destruct x end;
    [auto with keeps|].
  apply keeps_bind.
  - match goal with |- keeps_tokens W (content_parts ?c) => destruct c end;
      simpl; auto with keeps.
    apply keeps_for_each. intros; apply keeps_item_step.
  - intros ps. case_bool_decide; auto with keeps.
Qed.

Lemma raise_keeps_bind {A B} (m : M (gstate W) A) (k : A -> M (gstate W) B) :
  keeps_tokens W m -> (forall a, raise_keeps_tokens W (k a)) ->
  raise_keeps_tokens W (bind m k).
Proof.
  intros Hm Hk s e s'. unfold bind.
  destruct (m s) as [[a|e1] s1] eqn:Hms.
  - intros Hks. rewrite (Hk _ _ _ _ Hks). eapply Hm; eauto.
  - intros [= _ <-]. eapply Hm; eauto.
Qed.

Lemma raise_keeps_read_usage (r : response) : raise_keeps_tokens W (read_usage r).
Proof.
  intros s e s'. unfold read_usage, try_except, bind, lift, set_token_info.
  destruct (usage_metadata r) as [um|e1]; simpl.
  - destruct (py_add _ _) as [total|e2]; simpl; [discriminate|].
    destruct (isinstance_exn e2 AttributeError); simpl; intros [= _ <-]; reflexivity.
  - destruct (isinstance_exn e1 AttributeError); simpl; intros [= _ <-]; reflexivity.
Qed.

Lemma raise_keeps_gemini_call (messages : pyval)
    (system model_name api_key max_tokens temperature : pyval) :
  raise_keeps_tokens W
    (gemini_call messages system model_name api_key max_tokens temperature).
Proof.
  unfold gemini_call.
  repeat (apply raise_keeps_bind;
          [ first [ apply keeps_adapt_history | auto with keeps ] | intros ? ]).
  apply raise_keeps_read_usage.
Qed.

(** C6: the helper always returns a pair and raises nothing.  When the
    call goes through, the pair is the response text and the token counts
    that the call left; when any step of the call raises, the text is the
    description of the failure by its class (missing dependency, attribute
    error, type error, anything else) and the three counters are zero. *)
Theorem run_gemini_interleaved_never_raises (messages : pyval)
    (system model_name api_key max_tokens temperature : pyval) (w : W) :
  (exists out w',
     run_gemini_interleaved messages system model_name api_key max_tokens temperature w
     = (Ok out, w'))
  /\ match gemini_call messages system model_name api_key max_tokens temperature
            (initial w) with
     | (Ok _, s) =>
         run_gemini_interleaved messages system model_name api_key max_tokens
           temperature w
         = (Ok (response_text s, token_info s), gworld s)
     | (Raise e, s) =>
         run_gemini_interleaved messages system model_name api_key max_tokens
           temperature w
         = (Ok (PStr (failure_text e),
                dict_literal [("input_tokens", PInt 0); ("output_tokens", PInt 0);
                              ("total_tokens", PInt 0)]),
            gworld s)
     end.
Proof.
  assert (Hcases :
    match gemini_call messages system model_name api_key max_tokens temperature
            (initial w) with
    | (Ok _, s) =>
        run_gemini_interleaved messages system model_name api_key max_tokens
          temperature w
        = (Ok (response_text s, token_info s), gworld s)
    | (Raise e, s) =>
        run_gemini_interleaved messages system model_name api_key max_tokens
          temperature w
        = (Ok (PStr (failure_text e), zero_token_info), gworld s)
    end).
  { unfold run_gemini_interleaved, try_except.
    destruct (gemini_call _ _ _ _ _ _ (initial w)) as [[u|e] s] eqn:Hcall;
      [reflexivity|].
    apply raise_keeps_gemini_call in Hcall. simpl in Hcall.
    unfold failure_text, gemini_handlers. simpl.
    destruct (isinstance_exn e ImportError); simpl; [by rewrite Hcall|].
    destruct (isinstance_exn e AttributeError); simpl; [by rewrite Hcall|].
    destruct (isinstance_exn e TypeError); simpl; [by rewrite Hcall|].
    rewrite DispatcherFacts.exception_is_root. simpl. by rewrite Hcall. }
  split; [|exact Hcases].
  destruct (gemini_call _ _ _ _ _ _ (initial w)) as [[u|e] s];
    rewrite Hcases; by eexists _, _.
Qed.

End Facts.

(** Runs in the sample environment. *)

Example basename_samples :
  basename "/data/shots/a.png" = "a.png" /\ basename "a.png" = "a.png"
  /\ basename "/data/shots/" = "" /\ basename "shots/a" = "a".
Proof. repeat split; reflexivity. Qed.

Example run_gemini_success :
  run_gemini_interleaved
    (PList [message "user" (PList [PStr "what is on screen?"; PStr "/data/ok.png"]);
            message "assistant" (PStr "a desktop")])
    (PStr "be brief") (PStr "gemini-1.5-pro-latest") (PStr "key") (PInt 256)
    (PFloat (S754_zero false)) tt
  = (Ok (PStr "done",
         dict_literal [("input_tokens", PInt 12); ("output_tokens", PInt 5);
                       ("total_tokens", PInt 17)]), tt).
Proof. reflexivity. Qed.

Example run_gemini_unknown_model :
  run_gemini_interleaved (PList [message "user" (PStr "hello")])
    PNone (PStr "no-such-model") (PStr "key") (PInt 256) (PFloat (S754_zero false)) tt
  = (Ok (PStr "Error interacting with Gemini API: NotFound - 404 model is not found",
         zero_token_info), tt).
Proof. reflexivity. Qed.

Example run_gemini_malformed_message :
  run_gemini_interleaved (PList [PStr "hello"])
    PNone (PStr "gemini-1.5-pro-latest") (PStr "key") (PInt 256)
    (PFloat (S754_zero false)) tt
  = (Ok (PStr "Error setting up Gemini call (AttributeError): 'str' object has no attribute 'get'.",
         zero_token_info), tt).
Proof. reflexivity. Qed.

Lemma adapt_history_roles_and_parts_witness :
  adapt_history (PList [message "tool" (PStr "screenshot taken");
                        message "tool" (PList [PStr "/data/ok.png"])]) (initial tt)
  = (Ok [], initial tt).
Proof.
  apply (proj1 (proj2 (proj2 (proj2 (adapt_history_roles_and_parts
           [message "tool" (PStr "screenshot taken");
            message "tool" (PList [PStr "/data/ok.png"])] (initial tt)))))).
  repeat constructor; eexists; (split; [reflexivity|reflexivity]).
Defined.

Lemma image_reference_placeholders_witness :
  item_step (PStr "/shots/missing.png") [] (initial tt)
  = (Ok [Text (PStr "[Image not found: missing.png]")], initial tt).
Proof.
  assert (Himg : is_image_path "/shots/missing.png" = true) by reflexivity.
  exact (proj2 (proj2 (image_reference_placeholders "/shots/missing.png" []
                         (initial tt) Himg))).
Defined.

(** C7, counterexample: a file that exists and may not be read.  Opening it
    fails with a permission error; the placeholder names the file and
    carries nothing of the failure's text. *)
Lemma load_failure_reason_is_dropped :
  sample_open "/data/locked.png" tt
  = (Raise (mk_exn PermissionError "[Errno 13] Permission denied: '/data/locked.png'"), tt)
  /\ item_step (PStr "/data/locked.png") [] (initial tt)
     = (Ok [Text (PStr "[Error loading image: locked.png]")], initial tt)
  /\ contains "Permission denied" "[Error loading image: locked.png]" = false
  /\ contains "[Errno 13] Permission denied: '/data/locked.png'"
       "[Error loading image: locked.png]" = false.
Proof. repeat split; reflexivity. Qed.

Lemma unrecognized_content_is_skipped_witness :
  item_step (PDict (dict_literal [("type", PStr "image_url"); ("url", PStr "x")]))
    [Text (PStr "before")] (initial tt)
  = (Ok [Text (PStr "before")], initial tt).
Proof.
  apply (proj1 (unrecognized_content_is_skipped (initial tt))).
  - discriminate.
  - intros d [= <-]. discriminate.
Defined.


Example run_gemini_no_history :
  run_gemini_interleaved PNone
    PNone (PStr "gemini-1.5-pro-latest") (PStr "key") (PInt 256)
    (PFloat (S754_zero false)) tt
  = (Ok (PStr "Type error during Gemini call (check arguments/version): 'NoneType' object is not iterable.",
         zero_token_info), tt).
Proof. reflexivity. Qed.

(** The history of [Store.sample_heap], as a value. *)
Example adapt_sample_history :
  adapt_history
    (PList [message "assistant" (PStr "hi");
            message "user"
              (PList [PDict (dict_literal [("type", PStr "text"); ("text", PStr "look")]);
                      PStr "/shots/missing.png"])])
    (initial tt)
  = (Ok [mk_turn (PStr "model") [Text (PStr "hi")];
         mk_turn (PStr "user")
           [Text (PStr "look"); Text (PStr "[Image not found: missing.png]")]],
     initial tt).
Proof. reflexivity. Qed.

End GeminiFacts.

(** * Properties of the adapter on the heap *)

Module StoreFacts.
Import Gemini Store.
Local Open Scope py_scope.

Lemma entries_get_fresh (h0 : heap) (entries : list (string * value)) (k : string) :
  Forall (fresh_value h0) (map snd entries) -> fresh_value h0 (entries_get entries k).
Proof.
  intros Hall. unfold entries_get.
  destruct (List.find _ entries) as [kv|] eqn:Hf; [|exact I].
  apply find_some in Hf as [Hin _].
  rewrite Forall_forall in Hall. apply Hall.
  apply list_elem_of_In, in_map, Hin.
Qed.

Lemma getitem_fresh (h0 : heap) (entries : list (string * value)) (k : string) (v : value) :
  Forall (fresh_value h0) (map snd entries) -> getitem entries k = Ok v ->
  fresh_value h0 v.
Proof.
  intros Hall. unfold getitem.
  destruct (List.find _ entries) as [kv|] eqn:Hf; [|discriminate].
  intros [= <-]. apply find_some in Hf as [Hin _].
  rewrite Forall_forall in Hall. apply Hall.
  apply list_elem_of_In, in_map, Hin.
Qed.

Lemma entries_set_fresh (h0 : heap) (entries : list (string * value)) (k : string)
    (v : value) :
  Forall (fresh_value h0) (map snd entries) -> fresh_value h0 v ->
  Forall (fresh_value h0) (map snd (entries_set entries k v)).
Proof.
  intros Hall Hv. induction entries as [|[k' v'] rest IH]; simpl.
  - by constructor.
  - inversion Hall as [|? ? Hv' Hrest]; subst.
    destruct (String.eqb k' k); simpl; constructor; auto.
Qed.

Section Facts.
Context {W : Type} `{ENV : Env W}.
Variable h0 : heap.

Lemma triple_ret {A} (a : A) (Q : A -> Prop) : Q a -> triple W h0 (ret a) Q.
Proof. intros HQ s r s' Hinv [= <- <-]. split; [done|]. by intros ? [= <-]. Qed.

Lemma triple_fail {A} (e : exn) (f : sstate W -> exn) (Q : A -> Prop) :
  triple W h0 (fun s => (Raise (f s), s)) Q.
Proof. intros s r s' Hinv [= <- <-]. split; [done|]. intros ? [=]. Qed.

Lemma triple_raise {A} (e : exn) (Q : A -> Prop) : triple W h0 (raise e) Q.
Proof. intros s r s' Hinv [= <- <-]. split; [done|]. intros ? [=]. Qed.

Lemma triple_lift {A} (r : result A) (Q : A -> Prop) :
  (forall a, r = Ok a -> Q a) -> triple W h0 (lift r) Q.
Proof. intros HQ s r' s' Hinv [= <- <-]. by split. Qed.

Lemma triple_weaken {A} (m : M (sstate W) A) (Q Q' : A -> Prop) :
  triple W h0 m Q -> (forall a, Q a -> Q' a) -> triple W h0 m Q'.
Proof.
  intros Hm Himp s r s' Hinv Hrun. destruct (Hm s r s' Hinv Hrun) as [Hi HQ].
  split; [done|]. intros a Ha. apply Himp, HQ, Ha.
Qed.

Lemma triple_bind {A B} (m : M (sstate W) A) (k : A -> M (sstate W) B)
    (Q : A -> Prop) (R : B -> Prop) :
  triple W h0 m Q -> (forall a, Q a -> triple W h0 (k a) R) -> triple W h0 (bind m k) R.
Proof.
  intros Hm Hk s r s' Hinv. unfold bind.
  destruct (m s) as [[a|e] s1] eqn:Hms; destruct (Hm _ _ _ Hinv Hms) as [Hi HQ].
  - intros Hks. eapply Hk; eauto.
  - intros [= <- <-]. split; [done|]. intros ? [=].
Qed.

Lemma triple_try_except {A} (body : M (sstate W) A)
    (handlers : list (exn_class * (exn -> M (sstate W) A))) (Q : A -> Prop) :
  triple W h0 body Q ->
  Forall (fun h => forall e, triple W h0 (snd h e) Q) handlers ->
  triple W h0 (try_except body handlers) Q.
Proof.
  intros Hb Hh s r s' Hinv. unfold try_except.
  destruct (body s) as [[a|e] s1] eqn:Hbs; destruct (Hb _ _ _ Hinv Hbs) as [Hi HQ].
  - intros [= <- <-]. by split.
  - destruct (List.find _ handlers) as [h|] eqn:Hf.
    + apply find_some in Hf as [Hin _]. rewrite Forall_forall in Hh.
      intros Hrun. eapply (Hh h); eauto. by apply list_elem_of_In.
    + intros [= <- <-]. split; [done|]. intros ? [=].
Qed.

Lemma triple_for_each {A B} (body : A -> B -> M (sstate W) B) (P : B -> Prop)
    (xs : list A) (I : A -> Prop) :
  (forall x acc, I x -> P acc -> triple W h0 (body x acc) P) ->
  Forall I xs -> forall acc, P acc -> triple W h0 (for_each xs body acc) P.
Proof.
  intros Hbody HI. induction HI as [|x xs Hx _ IH]; intros acc Hacc; simpl.
  - by apply triple_ret.
  - eapply triple_bind; [by apply Hbody|]. intros acc' Hacc'. by apply IH.
Qed.

(** *** The primitive operations *)

Lemma triple_alloc (o : obj) :
  Forall (fresh_value h0) (obj_values o) ->
  triple W h0 (alloc o) (fun l => l ∉ dom h0).
Proof.
  intros Ho s r s' [Hsub Hclosed] [= <- <-]; simpl.
  pose proof (is_fresh (dom (sheap s))) as Hfresh.
  assert (Hl : fresh (dom (sheap s)) ∉ dom h0).
  { intros Hin. apply Hfresh. by apply (subseteq_dom h0 (sheap s) Hsub). }
  split; [split|].
  - apply insert_subseteq_r; [|done]. by apply not_elem_of_dom.
  - intros l o'; simpl. rewrite lookup_insert. case_decide.
    + intros [= <-] _. exact Ho.
    + apply Hclosed.
  - by intros a [= <-].
Qed.

Lemma triple_deref (v : value) :
  triple W h0 (deref v)
    (fun o => (o = None -> fresh_value h0 v)
              /\ forall ob, o = Some ob -> fresh_value h0 v ->
                            Forall (fresh_value h0) (obj_values ob)).
Proof.
  intros s r s' [Hsub Hclosed] [= <- <-]. split; [done|].
  intros a [= <-]. split.
  - destruct v as [ | | | | |l]; try done. simpl. intros Hnone.
    rewrite not_elem_of_dom. destruct (h0 !! l) as [o|] eqn:Hl; [|done].
    by rewrite (lookup_weaken _ _ _ _ Hl Hsub) in Hnone.
  - intros ob Hob Hv. destruct v; try discriminate. eapply Hclosed; eauto.
Qed.

Lemma triple_append (target v : value) :
  fresh_value h0 target -> fresh_value h0 v ->
  triple W h0 (append target v) (fun _ => True).
Proof.
  intros Ht Hv s r s' [Hsub Hclosed]. unfold append.
  destruct target as [ | | | | |l]; try (intros [= <- <-]; by repeat split).
  destruct (sheap s !! l) as [[items| |]|] eqn:Hl;
    try (intros [= <- <-]; by repeat split).
  intros [= <- <-]; simpl. split; [split|done].
  - apply insert_subseteq_r; [|done]. by apply not_elem_of_dom.
  - intros l' o'; simpl. rewrite lookup_insert. case_decide.
    + intros [= <-] _. simpl. apply Forall_app. split; [|by constructor].
      by apply (Hclosed l (OList items)).
    + apply Hclosed.
Qed.

Lemma triple_setitem (target : value) (k : string) (v : value) :
  fresh_value h0 target -> fresh_value h0 v ->
  triple W h0 (setitem target k v) (fun _ => True).
Proof.
  intros Ht Hv s r s' [Hsub Hclosed]. unfold setitem.
  destruct target as [ | | | | |l]; try (intros [= <- <-]; by repeat split).
  destruct (sheap s !! l) as [[|entries|]|] eqn:Hl;
    try (intros [= <- <-]; by repeat split).
  intros [= <- <-]; simpl. split; [split|done].
  - apply insert_subseteq_r; [|done]. by apply not_elem_of_dom.
  - intros l' o'; simpl. rewrite lookup_insert. case_decide.
    + intros [= <-] _. simpl. apply entries_set_fresh; [|done].
      by apply (Hclosed l (ODict entries)).
    + apply Hclosed.
Qed.

Lemma triple_sextern {A} (f : W -> result A * W) :
  triple W h0 (sextern f) (fun _ => True).
Proof.
  intros s r s' Hinv. unfold sextern. destruct (f (sworld s)) as [r1 w].
  intros [= <- <-]. by split.
Qed.

(** *** The deep copy *)

Lemma memo_fresh_insert (memo : gmap loc loc) (l y : loc) :
  memo_fresh h0 memo -> y ∉ dom h0 -> memo_fresh h0 (<[l := y]> memo).
Proof.
  intros Hm Hy l1 l2. rewrite lookup_insert. case_decide; [by intros [= <-]|apply Hm].
Qed.

Lemma triple_deepcopy (depth : nat) :
  forall (x : value) (memo : gmap loc loc),
    memo_fresh h0 memo ->
    triple W h0 (deepcopy depth x memo)
      (fun ym => fresh_value h0 (fst ym) /\ memo_fresh h0 (snd ym)).
Proof.
  induction depth as [|d IH]; intros x memo Hm;
    (destruct x as [ | | | | |l]; try (by apply triple_ret)); simpl;
    (destruct (memo !! l) as [l'|] eqn:Hl; [apply triple_ret; split; [by eapply Hm|done]|]).
  - apply triple_raise.
  - eapply triple_bind; [apply triple_deref|]. intros o [Hnone _].
    destruct o as [[items|entries|file]|].
    + eapply triple_bind; [by apply triple_alloc|]. intros y Hy.
      eapply triple_bind.
      * apply (triple_for_each _ (memo_fresh h0) items (fun _ => True));
          [|by apply Forall_true|by apply memo_fresh_insert].
        intros a m _ Hmf. eapply triple_bind; [by apply IH|].
        intros [a' m'] [Ha' Hm']. simpl.
        eapply triple_bind; [by apply triple_append|]. intros _ _.
        by apply triple_ret.
      * intros memo' Hm'. by apply triple_ret.
    + eapply triple_bind; [by apply triple_alloc|]. intros y Hy.
      eapply triple_bind.
      * apply (triple_for_each _ (memo_fresh h0) entries (fun _ => True));
          [|by apply Forall_true|by apply memo_fresh_insert].
        intros kv m _ Hmf. eapply triple_bind; [by apply IH|].
        intros [v' m'] [Hv' Hm']. simpl.
        eapply triple_bind; [by apply triple_setitem|]. intros _ _.
        by apply triple_ret.
      * intros memo' Hm'. by apply triple_ret.
    + eapply triple_bind; [by apply triple_alloc|]. intros y Hy.
      apply triple_ret. split; [done|]. by apply memo_fresh_insert.
    + apply triple_ret. split; [by apply Hnone|done].
Qed.

(** *** The adapter *)

Lemma triple_call_get (v : value) (k : string) :
  fresh_value h0 v -> triple W h0 (call_get v k) (fresh_value h0).
Proof.
  intros Hv. unfold call_get.
  eapply triple_bind; [apply triple_deref|]. intros o [_ Ho].
  destruct o as [[items|entries|file]|]; try (by apply (triple_fail (mk_exn Exception ""))).
  apply triple_ret. apply entries_get_fresh. by apply (Ho (ODict entries)).
Qed.

Lemma triple_iterate (v : value) :
  fresh_value h0 v -> triple W h0 (iterate v) (Forall (fresh_value h0)).
Proof.
  intros Hv. unfold iterate.
  eapply triple_bind; [apply triple_deref|]. intros o [_ Ho].
  destruct o as [[items|entries|file]|].
  - apply triple_ret. by apply (Ho (OList items)).
  - apply triple_ret. apply Forall_forall. intros x Hx.
    apply list_elem_of_In, in_map_iff in Hx as (kv & <- & _). exact I.
  - destruct v; try (by apply (triple_fail (mk_exn Exception ""))).
    apply triple_ret. apply Forall_forall. intros x Hx.
    apply list_elem_of_In, in_map_iff in Hx as (c & <- & _). exact I.
  - destruct v; try (by apply (triple_fail (mk_exn Exception ""))).
    apply triple_ret. apply Forall_forall. intros x Hx.
    apply list_elem_of_In, in_map_iff in Hx as (c & <- & _). exact I.
Qed.

Lemma triple_load_image_part (item : string) (gemini_parts : value) :
  fresh_value h0 gemini_parts ->
  triple W h0 (load_image_part item gemini_parts) (fun _ => True).
Proof.
  intros Hp. unfold load_image_part. apply triple_try_except.
  - eapply (triple_bind _ _ (fun _ => True)).
    + intros s r s' Hinv [= <- <-]. by split.
    + intros [|] _; [|by apply triple_append].
      eapply triple_bind; [apply triple_sextern|]. intros i _.
      eapply triple_bind; [by apply triple_alloc|]. intros img Himg.
      by apply triple_append.
  - do 3 (constructor; [intros e; simpl; by apply triple_append|]).
    constructor.
Qed.

Lemma triple_item_step (gemini_parts item : value) :
  fresh_value h0 gemini_parts -> fresh_value h0 item ->
  triple W h0 (item_step gemini_parts item tt) (fun _ => True).
Proof.
  intros Hp Hi. unfold item_step.
  eapply triple_bind; [apply triple_deref|]. intros o [_ Ho].
  assert (Hstr : forall s, triple W h0
            (if is_image_path s then load_image_part s gemini_parts
             else append gemini_parts (VStr s)) (fun _ => True)).
  { intros s. destruct (is_image_path s);
      [by apply triple_load_image_part | by apply triple_append]. }
  destruct o as [[items|entries|file]|].
  2: { destruct (value_eq_str _ _); [|by apply triple_ret].
       eapply triple_bind.
       - apply (triple_lift _ (fresh_value h0)). intros t Ht.
         eapply getitem_fresh; [|exact Ht]. by apply (Ho (ODict entries)).
       - intros t Ht. by apply triple_append. }
  all: destruct item; try (by apply triple_ret); apply Hstr.
Qed.

Lemma triple_message_step (gemini_history msg : value) :
  fresh_value h0 gemini_history -> fresh_value h0 msg ->
  triple W h0 (message_step gemini_history msg tt) (fun _ => True).
Proof.
  intros Hh Hm. unfold message_step.
  eapply triple_bind; [by apply triple_call_get|]. intros role Hrole.
  eapply triple_bind; [by apply triple_call_get|]. intros content Hcontent.
  assert (Hrest : forall r, fresh_value h0 r ->
    triple W h0
      (if negb (existsb (value_eq_str r) ["user"; "model"]) then ret tt
       else
         let* parts_loc := alloc (OList []) in
         let gemini_parts := VRef parts_loc in
         let* c := deref content in
         let* _ :=
           match c, content with
           | Some (OList items), _ => for_each items (item_step gemini_parts) tt
           | _, VStr _ => append gemini_parts content
           | _, _ => ret tt
           end in
         let* ps := deref gemini_parts in
         match ps with
         | Some (OList []) => ret tt
         | _ =>
             let* t := alloc (ODict [("role", r); ("parts", gemini_parts)]) in
             append gemini_history (VRef t)
         end) (fun _ => True)).
  { intros r Hr. destruct (negb _); [by apply triple_ret|].
    eapply triple_bind; [by apply triple_alloc|]. intros parts_loc Hparts.
    eapply triple_bind; [apply triple_deref|]. intros c [_ Hc].
    eapply (triple_bind _ _ (fun _ => True)).
    - destruct c as [[items|entries|file]|].
      1: { apply (triple_for_each _ (fun _ => True) items (fresh_value h0));
             [|by apply (Hc (OList items))|done].
           intros x [] Hx _. by apply triple_item_step. }
      all: destruct content; try (by apply triple_ret); by apply triple_append.
    - intros _ _. eapply triple_bind; [apply triple_deref|]. intros ps _.
      assert (Hturn : triple W h0
                (let* t := alloc (ODict [("role", r); ("parts", VRef parts_loc)]) in
                 append gemini_history (VRef t)) (fun _ => True)).
      { eapply triple_bind; [apply triple_alloc; by repeat constructor|].
        intros t Ht. by apply triple_append. }
      destruct ps as [[[|x items]|entries|file]|]; try exact Hturn.
      by apply triple_ret. }
  destruct (value_eq_str role "assistant"); [by apply Hrest|].
  destruct (value_eq_str role "tool"); [by apply triple_ret|by apply Hrest].
Qed.

Lemma triple_adapt_history (depth : nat) (messages : value) :
  triple W h0 (adapt_history depth messages)
    (fun g => exists l, g = VRef l /\ l ∉ dom h0).
Proof.
  unfold adapt_history.
  eapply triple_bind; [by apply triple_alloc|]. intros h Hh.
  eapply triple_bind; [by apply triple_deepcopy|]. intros [copied memo] [Hc _].
  eapply triple_bind; [by apply triple_iterate|]. intros msgs Hmsgs.
  eapply (triple_bind _ _ (fun _ => True)).
  - apply (triple_for_each _ (fun _ => True) msgs (fresh_value h0)); [|done|done].
    intros x [] Hx _. by apply triple_message_step.
  - intros _ _. apply triple_ret. by exists h.
Qed.

End Facts.

Section Frame.
Context {W : Type} `{ENV : Env W}.

(** C8: whatever the caller's heap holds and whatever the call does, every
    object of the caller's heap is the same after the adapter has run; the
    list that the adapter returns is a new object; and no object created by
    the call, copy or adapted turn, refers to an object of the caller, so
    the caller's history cannot be reached from the adapted one. *)
Theorem adapt_history_leaves_caller_heap (depth : nat) (messages : value)
    (s : sstate W) :
  let out := adapt_history depth messages s in
  (forall l o, sheap s !! l = Some o -> sheap out.2 !! l = Some o)
  /\ (forall g, out.1 = Ok g -> exists l, g = VRef l /\ l ∉ dom (sheap s))
  /\ (forall l o, sheap out.2 !! l = Some o -> l ∉ dom (sheap s) ->
       Forall (fresh_value (sheap s)) (obj_values o)).
Proof.
  intros out.
  assert (Hinv : inv (sheap s) s).
  { split; [done|]. intros l o Hl Hnot. exfalso. apply Hnot. by eapply elem_of_dom_2. }
  destruct (triple_adapt_history (sheap s) depth messages s out.1 out.2 Hinv)
    as [[Hsub Hclosed] Hres]; [apply surjective_pairing|].
  split; [|split].
  - intros l o Hl. by apply (lookup_weaken _ _ _ _ Hl Hsub).
  - exact Hres.
  - exact Hclosed.
Qed.

End Frame.

(** Runs on the sample heap, in the sample environment. *)

Lemma adapt_history_leaves_caller_heap_witness :
  sheap (adapt_history 10 (VRef 1%positive) (mk_sstate sample_heap tt)).2 !! 2%positive
  = Some (ODict [("role", VStr "assistant"); ("content", VStr "hi")]).
Proof.
  apply (proj1 (adapt_history_leaves_caller_heap 10 (VRef 1%positive)
                  (mk_sstate sample_heap tt))).
  reflexivity.
Defined.

(** The adapted history of the sample: two turns, the first with the role
    rewritten, the second with the placeholder of the missing image; the
    caller's five objects are as they were. *)
Example adapt_sample_heap :
  let out := adapt_history 10 (VRef 1%positive) (mk_sstate sample_heap tt) in
  out.1 = Ok (VRef 6%positive)
  /\ sheap out.2 !! 6%positive = Some (OList [VRef 13%positive; VRef 15%positive])
  /\ sheap out.2 !! 13%positive
     = Some (ODict [("role", VStr "model"); ("parts", VRef 12%positive)])
  /\ sheap out.2 !! 12%positive = Some (OList [VStr "hi"])
  /\ sheap out.2 !! 15%positive
     = Some (ODict [("role", VStr "user"); ("parts", VRef 14%positive)])
  /\ sheap out.2 !! 14%positive
     = Some (OList [VStr "look"; VStr "[Image not found: missing.png]"])
  /\ Forall (fun l => sheap out.2 !! l = sample_heap !! l)
       [1%positive; 2%positive; 3%positive; 4%positive; 5%positive].
Proof. vm_compute. repeat split; repeat constructor. Qed.

(** Too deep for the recursion limit: the copy raises, which the caller of
    the adapter turns into an error text; the heap of the caller is as it
    was all the same. *)
Example adapt_sample_too_deep :
  (adapt_history 2 (VRef 1%positive) (mk_sstate sample_heap tt)).1
  = Raise (mk_exn RecursionError "maximum recursion depth exceeded").
Proof. vm_compute. reflexivity. Qed.

End StoreFacts.

(** * Further properties of the dispatcher *)

Module DispatcherMoreFacts.
Import Dispatcher DispatcherFacts DispatcherMore.
Local Open Scope py_scope.

Lemma error_envelope_shape (m : string) : is_envelope (error_envelope m).
Proof. eexists. split; [reflexivity|]. right. split; [reflexivity|]. by exists m. Qed.

Lemma success_envelope_shape (out : pyval) (img : option pyval) :
  is_envelope (success_envelope out img).
Proof.
  eexists. split; [reflexivity|]. left. split; [reflexivity|].
  unfold dict_literal; simpl. rewrite lookup_insert_ne by done.
  rewrite lookup_insert_eq. by eexists.
Qed.

Lemma envelope_of_shape (r : result tool_result) : is_envelope (envelope_of r).
Proof.
  destruct r as [tr|e]; simpl; [apply success_envelope_shape|].
  destruct (isinstance_exn e ToolError); apply error_envelope_shape.
Qed.

Section Facts.
Context {W : Type} `{RT : Runtime W}.

Lemma handler_run_form (ep : entry_point) (params : gmap string pyval) (s : state W) :
  run_form ep params s.
Proof.
  assert (Hnn : forall v, is_None v = false -> v <> PNone)
    by (intros [] ?; simpl in *; congruence).
  destruct ep; simpl.
  - destruct (is_None (dict_get params "x")) eqn:Hx;
      [eapply form_reject; simpl; unfold handle_mouse_move; by rewrite Hx|].
    destruct (is_None (dict_get params "y")) eqn:Hy;
      [eapply form_reject; simpl; unfold handle_mouse_move; by rewrite Hx, Hy|].
    apply (form_call _ _ _ (mk_call "mouse_move" PNone
             (PTuple [dict_get params "x"; dict_get params "y"]))).
    + left. split; [by left|]. split; [done|]. eexists _, _. eauto.
    + simpl. unfold handle_mouse_move. by rewrite Hx, Hy.
  - destruct (str_lower (dict_get_default params "button" (PStr "left")))
      as [b|e] eqn:Hb;
      [|eapply form_raise; [done|]; simpl; unfold handle_mouse_click, bind, lift;
        by rewrite Hb].
    destruct (str_lower (dict_get_default params "click_type" (PStr "click")))
      as [c|e] eqn:Hc;
      [|eapply form_raise; [done|]; simpl; unfold handle_mouse_click, bind, lift;
        by rewrite Hb, Hc].
    destruct (spec_click_table b c) as [a|] eqn:Ha.
    + apply (form_call _ _ _ (mk_call a PNone PNone)).
      * right; right. split; [|done]. simpl.
        unfold spec_click_table in Ha.
        repeat case_bool_decide; simplify_eq; apply list_elem_of_In; simpl; tauto.
      * simpl. unfold handle_mouse_click, bind, lift. rewrite Hb, Hc. simpl.
        rewrite action_map_table, Ha.
        unfold spec_click_table in Ha.
        repeat case_bool_decide; simplify_eq; done.
    + eapply form_reject. simpl. unfold handle_mouse_click, bind, lift.
      rewrite Hb, Hc. simpl. rewrite action_map_table, Ha. reflexivity.
  - destruct (is_None (dict_get params "x")) eqn:Hx;
      [eapply form_reject; simpl; unfold handle_mouse_drag; by rewrite Hx|].
    destruct (is_None (dict_get params "y")) eqn:Hy;
      [eapply form_reject; simpl; unfold handle_mouse_drag; by rewrite Hx, Hy|].
    apply (form_call _ _ _ (mk_call "left_click_drag" PNone
             (PTuple [dict_get params "x"; dict_get params "y"]))).
    + left. split; [by right|]. split; [done|]. eexists _, _. eauto.
    + simpl. unfold handle_mouse_drag. by rewrite Hx, Hy.
  - destruct (is_None (dict_get params "text_to_type")) eqn:Ht;
      [eapply form_reject; simpl; unfold handle_keyboard_type; by rewrite Ht|].
    apply (form_call _ _ _ (mk_call "type" (dict_get params "text_to_type") PNone)).
    + right; left. split; [by left|]. split; [by apply Hnn|done].
    + simpl. unfold handle_keyboard_type. by rewrite Ht.
  - destruct (is_None (dict_get params "key_to_press")) eqn:Ht;
      [eapply form_reject; simpl; unfold handle_keyboard_press_key; by rewrite Ht|].
    apply (form_call _ _ _ (mk_call "key" (dict_get params "key_to_press") PNone)).
    + right; left. split; [by right|]. split; [by apply Hnn|done].
    + simpl. unfold handle_keyboard_press_key. by rewrite Ht.
  - apply (form_call _ _ _ (mk_call "cursor_position" PNone PNone)); [|done].
    right; right. split; [|done]. apply list_elem_of_In; simpl; tauto.
  - destruct (gt_zero (dict_get_default params "duration" (PFloat (S754_zero false))))
      as [[|]|e] eqn:Hd.
    + eapply form_sleep; [done| |simpl; unfold handle_wait_seconds, bind, lift;
                                rewrite Hd; reflexivity].
      eexists. split; [reflexivity|]. left. split; [reflexivity|].
      unfold dict_literal; simpl. rewrite lookup_insert_eq. by eexists.
    + apply (form_call _ _ _ (mk_call "wait" PNone PNone)).
      * right; right. split; [|done]. apply list_elem_of_In; simpl; tauto.
      * simpl. unfold handle_wait_seconds, bind, lift. by rewrite Hd.
    + eapply form_raise; [done|]. simpl. unfold handle_wait_seconds, bind, lift.
      by rewrite Hd.
Qed.

Lemma new_events_app (s : state W) (w : W) (evs : list event) :
  new_events s (mk_state w (trace s ++ evs)) = evs.
Proof. unfold new_events; simpl. by rewrite drop_app_length. Qed.

Lemma new_events_same (s : state W) : new_events s s = [].
Proof. unfold new_events. by rewrite drop_all. Qed.

(** X1: a run of any entry point, on any bag and with any backend, extends
    the trace of effects by nothing, by one backend call, or by one sleep:
    never by two actions, and never by a call together with a sleep. *)
Theorem one_effect_per_call (ep : entry_point) (params : gmap string pyval)
    (s : state W) :
  let s' := (handler_of ep params s).2 in
  trace s' = (trace s ++ new_events s s')%list
  /\ (new_events s s' = []
      \/ (exists c, new_events s s' = [Invoke c])
      \/ (exists d, ep = WaitSeconds /\ new_events s s' = [Sleep d])).
Proof.
  destruct (handler_run_form ep params s) as [m Hr|e _ Hr|c _ Hr|d v Hep _ Hr]; simpl;
    rewrite Hr; try rewrite safe_computer_action_run; simpl.
  - rewrite new_events_same, app_nil_r. by split; [|left].
  - rewrite new_events_same, app_nil_r. by split; [|left].
  - rewrite new_events_app. split; [done|]. right; left. by eexists.
  - rewrite new_events_app. split; [done|]. right; right. by exists d.
Qed.

(** X2: every backend call that an entry point makes carries an action
    token of the fixed set with the arguments that go with it: a coordinate
    pair and no text for [mouse_move] and [left_click_drag], a text and no
    coordinate for [type] and [key], neither for the clicks,
    [cursor_position] and [wait]. *)
Theorem backend_calls_are_resolved (ep : entry_point) (params : gmap string pyval)
    (s : state W) (c : call) :
  Invoke c ∈ new_events s (handler_of ep params s).2 -> resolved_call c.
Proof.
  destruct (handler_run_form ep params s) as [m Hr|e _ Hr|c' Hc Hr|d v _ _ Hr];
    rewrite Hr; try rewrite safe_computer_action_run; simpl.
  - rewrite new_events_same. by intros ?%elem_of_nil.
  - rewrite new_events_same. by intros ?%elem_of_nil.
  - rewrite new_events_app. intros Hin%list_elem_of_singleton.
    injection Hin as ->. by destruct c'.
  - rewrite new_events_app. intros Hin%list_elem_of_singleton. discriminate.
Qed.

(** X3: whatever an entry point returns is an envelope: a dict with status
    [success] and an output, or with status [error] and a string message. *)
Theorem returned_value_is_envelope (ep : entry_point) (params : gmap string pyval)
    (s : state W) (v : pyval) :
  (handler_of ep params s).1 = Ok v -> is_envelope v.
Proof.
  destruct (handler_run_form ep params s) as [m Hr|e _ Hr|c _ Hr|d v' _ Hv Hr];
    rewrite Hr; try rewrite safe_computer_action_run; simpl; intros [= <-].
  - apply error_envelope_shape.
  - apply envelope_of_shape.
  - exact Hv.
Qed.

(** X4: [mouse_move], [mouse_drag], [keyboard_type], [keyboard_press_key]
    and [get_cursor_position] return an envelope for every bag and every
    behaviour of the backend; they never raise. *)
Theorem total_entry_points_return (ep : entry_point) (params : gmap string pyval)
    (s : state W) :
  total_entry_point ep = true ->
  exists v, (handler_of ep params s).1 = Ok v /\ is_envelope v.
Proof.
  intros Htot.
  destruct (handler_run_form ep params s) as [m Hr|e He Hr|c _ Hr|d v' _ Hv Hr];
    try congruence; rewrite Hr; try rewrite safe_computer_action_run; simpl;
    eexists; (split; [reflexivity|]);
    [apply error_envelope_shape | apply envelope_of_shape | exact Hv].
Qed.

(** X5: [mouse_click] raises exactly when the button or the click type of
    the bag is not a string; the exception is an [AttributeError], and
    nothing has been done: no backend call, no change of state. *)
Theorem mouse_click_raises_iff_not_str (params : gmap string pyval) (s : state W) :
  if (is_str (dict_get_default params "button" (PStr "left"))
      && is_str (dict_get_default params "click_type" (PStr "click")))%bool
  then exists v, (handle_mouse_click params s).1 = Ok v
  else exists e, handle_mouse_click params s = (Raise e, s)
                 /\ exn_cls e = AttributeError.
Proof.
  unfold handle_mouse_click, bind, lift.
  destruct (dict_get_default params "button" (PStr "left")) as [ | | | |b| | | ];
    simpl; try by eexists.
  destruct (dict_get_default params "click_type" (PStr "click")) as [ | | | |c| | | ];
    simpl; try by eexists.
  destruct (action_map !! (lower b, lower c)) as [a|]; [|by eexists].
  case_bool_decide; [by eexists|]. rewrite safe_computer_action_run. by eexists.
Qed.

(** X6: [wait_seconds] with a duration that is not a number (a string,
    [None], a list, a dict) raises a [TypeError] from the comparison with
    zero, and nothing has been done; with a number it returns an envelope;
    a not-a-number float is not greater than zero and falls back to the
    backend's wait. *)
Theorem wait_seconds_non_number (params : gmap string pyval) (s : state W) :
  match params !! "duration" with
  | Some d =>
      if is_number d then
        (exists v, (handle_wait_seconds params s).1 = Ok v /\ is_envelope v)
        /\ (d = PFloat S754_nan ->
            handle_wait_seconds params s = safe_computer_action "wait" PNone PNone s)
      else exists e, handle_wait_seconds params s = (Raise e, s)
                     /\ exn_cls e = TypeError
  | None => exists v, (handle_wait_seconds params s).1 = Ok v /\ is_envelope v
  end.
Proof.
  assert (Hok : forall d, is_number d = true ->
            params !! "duration" = Some d ->
            exists v, (handle_wait_seconds params s).1 = Ok v /\ is_envelope v).
  { intros d Hd Hp.
    destruct (handler_run_form WaitSeconds params s) as [m Hr|e _ Hr|c _ Hr|d' v' _ Hv Hr];
      simpl in Hr; rewrite Hr; try rewrite safe_computer_action_run; simpl.
    - eexists; split; [done|apply error_envelope_shape].
    - exfalso. unfold handle_wait_seconds, dict_get_default, bind, lift in Hr.
      rewrite Hp in Hr. simpl in Hr.
      destruct d; try discriminate; simpl in Hr;
        match type of Hr with (if ?b then _ else _) _ = _ => destruct b end;
        try rewrite safe_computer_action_run in Hr; discriminate.
    - eexists; split; [done|apply envelope_of_shape].
    - by eexists. }
  destruct (params !! "duration") as [d|] eqn:Hp.
  - destruct (is_number d) eqn:Hd.
    + split; [by apply (Hok d)|]. intros ->.
      unfold handle_wait_seconds, dict_get_default, bind, lift. by rewrite Hp.
    + unfold handle_wait_seconds, dict_get_default, bind, lift. rewrite Hp.
      destruct d; try discriminate; simpl; by eexists.
  - unfold handle_wait_seconds, dict_get_default, bind, lift. rewrite Hp. simpl.
    rewrite safe_computer_action_run. simpl.
    eexists; split; [done|apply envelope_of_shape].
Qed.

(** X7: a required field that is present with the value [None] (a JSON
    null) is treated as missing: the entry point returns the same error
    envelope naming the field and does not call the backend. *)
Theorem none_field_is_missing (ep : entry_point) (params : gmap string pyval)
    (field : string) (s : state W) :
  field ∈ spec_required_fields ep ->
  params !! field = Some PNone ->
  exists message,
    handler_of ep params s = (Ok (error_envelope message), s)
    /\ contains field message = true.
Proof.
  intros Hin Hnone.
  destruct ep; simpl in Hin; set_unfold in Hin;
    repeat match goal with H : _ \/ _ |- _ => destruct H end;
    subst; try contradiction; simpl;
    unfold handle_mouse_move, handle_mouse_drag, handle_keyboard_type,
      handle_keyboard_press_key, dict_get; rewrite Hnone; simpl;
    try rewrite orb_true_r;
    (eexists; split; [reflexivity | reflexivity]).
Qed.

(** X8: the click resolution does not depend on letter case.  Two bags
    whose buttons and click types are strings equal up to case lead to the
    same state, and to the same result when the pair is in the table (the
    error message for a pair outside it quotes the spelling received). *)
Theorem mouse_click_ignores_case (params params' : gmap string pyval)
    (b c b' c' : string) (s : state W) :
  dict_get_default params "button" (PStr "left") = PStr b ->
  dict_get_default params "click_type" (PStr "click") = PStr c ->
  dict_get_default params' "button" (PStr "left") = PStr b' ->
  dict_get_default params' "click_type" (PStr "click") = PStr c' ->
  lower b = lower b' -> lower c = lower c' ->
  (handle_mouse_click params s).2 = (handle_mouse_click params' s).2
  /\ (is_Some (action_map !! (lower b, lower c)) ->
      handle_mouse_click params s = handle_mouse_click params' s).
Proof.
  intros Hb Hc Hb' Hc' Hlb Hlc.
  unfold handle_mouse_click, bind, lift. rewrite Hb, Hc, Hb', Hc'. simpl.
  rewrite <- Hlb, <- Hlc.
  destruct (action_map !! (lower b, lower c)) as [a|] eqn:Ha.
  - case_bool_decide; [|done]. split; [done|]. intros _.
    subst a. exfalso. revert Ha.
    rewrite action_map_table. unfold spec_click_table.
    repeat case_bool_decide; discriminate.
  - split; [done|]. by intros [? ?].
Qed.

(** X9: an entry point reads the keys of its own parameters only: keys it
    does not know are ignored, so two bags that agree on the keys read lead
    to the same run. *)
Theorem unknown_keys_are_ignored (ep : entry_point) (params params' : gmap string pyval)
    (s : state W) :
  (forall k, k ∈ fields_read ep -> params !! k = params' !! k) ->
  handler_of ep params s = handler_of ep params' s.
Proof.
  intros Hagree.
  assert (Hget : forall k, k ∈ fields_read ep ->
            dict_get params k = dict_get params' k
            /\ forall dflt, dict_get_default params k dflt
                            = dict_get_default params' k dflt).
  { intros k Hk. unfold dict_get, dict_get_default. by rewrite (Hagree k Hk). }
  destruct ep; simpl in *;
    unfold handle_mouse_move, handle_mouse_click, handle_mouse_drag,
      handle_keyboard_type, handle_keyboard_press_key, handle_get_cursor_position,
      handle_wait_seconds;
    repeat match goal with
      | |- context [dict_get params ?k] =>
          rewrite (proj1 (Hget k ltac:(apply list_elem_of_In; simpl; tauto)))
      | |- context [dict_get_default params ?k ?d] =>
          rewrite (proj2 (Hget k ltac:(apply list_elem_of_In; simpl; tauto)) d)
      end; reflexivity.
Qed.

End Facts.

(** Runs on the sample backend. *)

Lemma backend_calls_are_resolved_witness :
  resolved_call (mk_call "left_click_drag" PNone (PTuple [PInt 3; PInt 4])).
Proof.
  apply (backend_calls_are_resolved MouseDrag
           (<["x" := PInt 3]> (<["y" := PInt 4]> ∅)) s0).
  vm_compute. left.
Defined.

Lemma returned_value_is_envelope_witness :
  is_envelope (error_envelope "Unsupported button/click_type: left/triple").
Proof.
  apply (returned_value_is_envelope MouseClick (<["click_type" := PStr "triple"]> ∅) s0).
  reflexivity.
Defined.

Lemma total_entry_points_return_witness :
  exists v, (handle_keyboard_press_key (<["key_to_press" := PList []]> ∅) s0).1 = Ok v
            /\ is_envelope v.
Proof.
  apply (total_entry_points_return KeyboardPressKey (<["key_to_press" := PList []]> ∅) s0).
  reflexivity.
Defined.

Lemma wait_seconds_non_number_witness :
  handle_wait_seconds (<["duration" := PFloat S754_nan]> ∅) s0
  = safe_computer_action "wait" PNone PNone s0.
Proof.
  exact (proj2 (wait_seconds_non_number (<["duration" := PFloat S754_nan]> ∅) s0)
           eq_refl).
Defined.

Lemma none_field_is_missing_witness :
  exists message,
    handle_keyboard_type (<["text_to_type" := PNone]> ∅) s0
    = (Ok (error_envelope message), s0)
    /\ contains "text_to_type" message = true.
Proof.
  apply (none_field_is_missing KeyboardType (<["text_to_type" := PNone]> ∅)
           "text_to_type" s0).
  - simpl. set_solver.
  - reflexivity.
Defined.

Lemma mouse_click_ignores_case_witness :
  (handle_mouse_click (<["button" := PStr "MIDDLE"]> ∅) s0).2
  = (handle_mouse_click (<["button" := PStr "Middle"]> (<["click_type" := PStr "CLICK"]> ∅)) s0).2
  /\ (is_Some (action_map !! (lower "MIDDLE", lower "click")) ->
      handle_mouse_click (<["button" := PStr "MIDDLE"]> ∅) s0
      = handle_mouse_click
          (<["button" := PStr "Middle"]> (<["click_type" := PStr "CLICK"]> ∅)) s0).
Proof.
  apply (mouse_click_ignores_case (<["button" := PStr "MIDDLE"]> ∅)
           (<["button" := PStr "Middle"]> (<["click_type" := PStr "CLICK"]> ∅))
           "MIDDLE" "click" "Middle" "CLICK" s0); reflexivity.
Defined.

Lemma unknown_keys_are_ignored_witness :
  handle_mouse_move (<["x" := PInt 1]> (<["y" := PInt 2]> ∅)) s0
  = handle_mouse_move
      (<["x" := PInt 1]> (<["y" := PInt 2]> (<["speed" := PStr "fast"]> ∅))) s0.
Proof.
  apply (unknown_keys_are_ignored MouseMove (<["x" := PInt 1]> (<["y" := PInt 2]> ∅))
           (<["x" := PInt 1]> (<["y" := PInt 2]> (<["speed" := PStr "fast"]> ∅))) s0).
  intros k Hk. simpl in Hk. set_unfold in Hk. destruct Hk as [->|[->|[]]]; reflexivity.
Defined.

End DispatcherMoreFacts.

(** * Further properties of the Gemini helper *)

Module GeminiMoreFacts.
Import Gemini GeminiFacts GeminiMore.
Local Open Scope py_scope.

Section Adapter.
Context {W : Type} `{ENV : Env W}.

(** *** Loops *)

Lemma for_each_app {A B} (body : A -> B -> M (gstate W) B) (xs ys : list A)
    (acc : B) (s : gstate W) :
  for_each (xs ++ ys) body acc s =
    match for_each xs body acc s with
    | (Ok acc', s') => for_each ys body acc' s'
    | (Raise e, s') => (Raise e, s')
    end.
Proof.
  revert acc s. induction xs as [|x xs IH]; intros acc s; simpl; [reflexivity|].
  unfold bind. destruct (body x acc s) as [[acc1|e] s1]; [apply IH|reflexivity].
Qed.

Lemma for_each_raises {A B} (Q : A -> Prop) (body : A -> B -> M (gstate W) B)
    (xs : list A) :
  (forall x acc s, Q x -> exists e s', body x acc s = (Raise e, s')) ->
  Exists Q xs ->
  forall acc s, exists e s', for_each xs body acc s = (Raise e, s').
Proof.
  intros Hbody. induction xs as [|x xs IH]; intros Hex acc s.
  - by apply Exists_nil in Hex.
  - simpl. unfold bind. destruct (body x acc s) as [[acc1|e] s1] eqn:Hb.
    + apply Exists_cons in Hex as [Hx|Hxs]; [|by apply IH].
      destruct (Hbody x acc s Hx) as (e & s' & He). congruence.
    + by eexists _, _.
Qed.

Lemma for_each_same_state {A B} (Q : A -> Prop) (body : A -> B -> M (gstate W) B)
    (xs : list A) :
  (forall x acc s, Q x -> (body x acc s).2 = s) ->
  Forall Q xs ->
  forall acc s, (for_each xs body acc s).2 = s.
Proof.
  intros Hbody HQ. induction HQ as [|x xs Hx _ IH]; intros acc s; simpl; [done|].
  unfold bind. pose proof (Hbody x acc s Hx) as Hs.
  destruct (body x acc s) as [[acc1|e] s1]; simpl in Hs; subst s1; [apply IH|done].
Qed.

(** *** Messages *)

Lemma message_step_acc (msg : pyval) (acc : list turn) (s : gstate W) :
  message_step msg acc s =
    match message_step msg [] s with
    | (Ok h, s') => (Ok (acc ++ h)%list, s')
    | (Raise e, s') => (Raise e, s')
    end.
Proof.
  destruct msg; try reflexivity.
  rewrite !message_step_dict.
  destruct (spec_remap (dict_get d "role")); [|by rewrite app_nil_r].
  destruct (content_parts _ s) as [[ps|e] s']; [|done].
  case_bool_decide; [by rewrite app_nil_r|done].
Qed.

Lemma message_step_at_most_one (msg : pyval) (h : list turn) (s s' : gstate W) :
  message_step msg [] s = (Ok h, s') -> (length h <= 1)%nat.
Proof.
  destruct msg; try discriminate.
  rewrite message_step_dict.
  destruct (spec_remap (dict_get d "role")); [|intros [= <- _]; simpl; lia].
  destruct (content_parts _ s) as [[ps|e] s1]; [|discriminate].
  intros [= <- _]. case_bool_decide; simpl; lia.
Qed.

Lemma for_each_message_acc (msgs : list pyval) (acc : list turn) (s : gstate W) :
  for_each msgs message_step acc s =
    match for_each msgs message_step [] s with
    | (Ok h, s') => (Ok (acc ++ h)%list, s')
    | (Raise e, s') => (Raise e, s')
    end.
Proof.
  revert acc s. induction msgs as [|m ms IH]; intros acc s; simpl.
  - unfold ret. by rewrite app_nil_r.
  - unfold bind. rewrite (message_step_acc m acc).
    destruct (message_step m [] s) as [[h1|e] s1]; [|done].
    rewrite (IH (acc ++ h1)%list), (IH ([] ++ h1)%list). simpl.
    destruct (for_each ms message_step [] s1) as [[h|e] s2]; [|done].
    by rewrite app_assoc.
Qed.

(** X10: the adapter works message by message, in order and without
    looking back: adapting two conversations one after the other is
    adapting the first, then the second in the state the first left, and
    joining the two histories; a failure in either is the failure of the
    whole. *)
Theorem adapt_history_app (a b : list pyval) (s : gstate W) :
  adapt_history (PList (a ++ b)) s =
    match adapt_history (PList a) s with
    | (Ok h1, s1) =>
        match adapt_history (PList b) s1 with
        | (Ok h2, s2) => (Ok (h1 ++ h2)%list, s2)
        | (Raise e, s2) => (Raise e, s2)
        end
    | (Raise e, s1) => (Raise e, s1)
    end.
Proof.
  unfold adapt_history, deepcopy, bind, lift; simpl.
  rewrite for_each_app.
  destruct (for_each a message_step [] s) as [[h1|e] s1]; [|done].
  apply for_each_message_acc.
Qed.

(** X11: a message gives at most one turn: the adapted history is never
    longer than the conversation. *)
Theorem adapt_history_length (msgs : list pyval) (s s' : gstate W) (h : list turn) :
  adapt_history (PList msgs) s = (Ok h, s') -> (length h <= length msgs)%nat.
Proof.
  unfold adapt_history, deepcopy, bind, lift; simpl.
  revert s s' h. induction msgs as [|m ms IH]; intros s s' h; simpl.
  - intros [= <- _]. simpl. lia.
  - unfold bind. destruct (message_step m [] s) as [[h1|e] s1] eqn:Hm; [|discriminate].
    rewrite for_each_message_acc.
    destruct (for_each ms message_step [] s1) as [[h2|e] s2] eqn:Hms; [|discriminate].
    intros [= <- _]. rewrite length_app.
    apply message_step_at_most_one in Hm. apply IH in Hms. lia.
Qed.

(** *** Items *)

Lemma item_step_plain (item t : pyval) (ps : list part) (s : gstate W) :
  plain_text item = Some t ->
  item_step item ps s = (Ok (ps ++ [Text t])%list, s).
Proof.
  destruct item; simpl; try discriminate.
  - destruct (is_image_path s0); [discriminate|]. by intros [= <-].
  - destruct (py_eq_str _ _); [|discriminate]. intros Ht.
    unfold bind, lift, subscript. by rewrite Ht.
Qed.

(** X12: text items and plain strings become parts one for one and in the
    order given, with no access to the file system; and a content that is a
    single string is one text part as it stands, even when the string has
    the shape of an image path. *)
Theorem content_parts_plain (s : gstate W) :
  (forall items ts,
     Forall2 (fun item t => plain_text item = Some t) items ts ->
     content_parts (PList items) s = (Ok (map Text ts), s))
  /\ (forall c, content_parts (PStr c) s = (Ok [Text (PStr c)], s)).
Proof.
  split; [|reflexivity].
  intros items ts Hall. simpl.
  change (map Text ts) with ([] ++ map Text ts)%list. generalize (@nil part) as acc.
  induction Hall as [|item t items ts Ht _ IH]; intros acc; simpl.
  - by rewrite app_nil_r.
  - unfold bind. rewrite (item_step_plain item t acc s Ht).
    rewrite IH. by rewrite <- app_assoc.
Qed.

Lemma item_step_no_image (item : pyval) (ps : list part) (s : gstate W) :
  no_image_item item -> (item_step item ps s).2 = s.
Proof.
  intros Hno. destruct item; simpl; try reflexivity.
  - by rewrite (Hno s0 eq_refl).
  - destruct (py_eq_str _ _); [|reflexivity].
    unfold bind, lift. by destruct (subscript d "text").
Qed.

Lemma message_step_no_image (msg : pyval) (h : list turn) (s : gstate W) :
  no_image_message msg -> (message_step msg h s).2 = s.
Proof.
  intros Hno. destruct msg; try reflexivity.
  rewrite message_step_dict.
  destruct (spec_remap (dict_get d "role")); [|reflexivity].
  assert (Hc : (content_parts (dict_get d "content") s).2 = s).
  { destruct (dict_get d "content") as [ | | | | | |items| ] eqn:Hcontent;
      try reflexivity.
    simpl. apply (for_each_same_state no_image_item); [|by eapply Hno].
    intros x acc s1. apply item_step_no_image. }
  destruct (content_parts _ s) as [[ps|e] s1]; simpl in Hc; by subst.
Qed.

(** X13: a conversation whose content lists hold no image reference is
    adapted without touching the outside world: whatever the outcome, the
    state after the adapter is the state before. *)
Theorem adapt_history_without_images (msgs : list pyval) (s : gstate W) :
  Forall no_image_message msgs ->
  (adapt_history (PList msgs) s).2 = s.
Proof.
  intros Hno. unfold adapt_history, deepcopy, bind, lift; simpl.
  apply (for_each_same_state no_image_message); [|done].
  intros x acc s1. apply message_step_no_image.
Qed.

Lemma message_step_rejected (msg : pyval) (acc : list turn) (s : gstate W) :
  rejected_message msg -> exists e s', message_step msg acc s = (Raise e, s').
Proof.
  intros [Hnd|(d & items & -> & [r Hr] & Hcontent & Hbad)].
  - destruct msg; try (by eexists _, _). by destruct (Hnd d).
  - rewrite message_step_dict, Hr, Hcontent. simpl.
    destruct (for_each_raises rejected_item item_step items) with (acc := @nil part)
      (s := s) as (e & s' & ->); [|done|by eexists _, _].
    intros item ps s2 (d' & -> & Htype & Htext). simpl.
    rewrite Htype. simpl. unfold bind, lift, subscript. rewrite Htext.
    by eexists _, _.
Qed.

(** X14: one message that is not a dict, or one text item without its
    [text] field in a message of an accepted role, makes the whole
    adaptation raise, whatever the other messages are: no partial history
    is returned. *)
Theorem adapt_history_rejects (msgs : list pyval) (s : gstate W) :
  Exists rejected_message msgs ->
  exists e s', adapt_history (PList msgs) s = (Raise e, s').
Proof.
  intros Hex. unfold adapt_history, deepcopy, bind, lift; simpl.
  apply (for_each_raises rejected_message); [|done].
  intros msg acc s1. apply message_step_rejected.
Qed.

(** *** Relations kept by the adapter *)

Section Relates.
Variable R : gstate W -> gstate W -> Prop.
Hypothesis R_refl : forall s, R s s.
Hypothesis R_trans : forall a b c, R a b -> R b c -> R a c.
Hypothesis R_open : forall p, relates R (extern (Image_open p)).

Lemma relates_ret {A} (a : A) : relates R (ret a).
Proof. intros s r s' [= _ <-]. apply R_refl. Qed.

Lemma relates_lift {A} (r : result A) : relates R (lift r).
Proof. intros s r' s' [= _ <-]. apply R_refl. Qed.

Lemma relates_exists_on_disk (p : string) : relates R (exists_on_disk p).
Proof. intros s r s' [= _ <-]. apply R_refl. Qed.

Lemma relates_bind {A B} (m : M (gstate W) A) (k : A -> M (gstate W) B) :
  relates R m -> (forall a, relates R (k a)) -> relates R (bind m k).
Proof.
  intros Hm Hk s r s'. unfold bind.
  destruct (m s) as [[a|e] s1] eqn:Hms.
  - intros Hks. eapply R_trans; [eapply Hm|eapply Hk]; eauto.
  - intros [= _ <-]. eapply Hm; eauto.
Qed.

Lemma relates_try_except {A} (body : M (gstate W) A)
    (handlers : list (exn_class * (exn -> M (gstate W) A))) :
  relates R body ->
  Forall (fun h => forall e, relates R (snd h e)) handlers ->
  relates R (try_except body handlers).
Proof.
  intros Hb Hh s r s'. unfold try_except.
  destruct (body s) as [[a|e] s1] eqn:Hbs.
  - intros [= _ <-]. eapply Hb; eauto.
  - destruct (List.find _ handlers) as [h|] eqn:Hf.
    + apply find_some in Hf as [Hin _]. rewrite Forall_forall in Hh.
      intros Hrun. eapply R_trans; [eapply Hb; eauto|].
      eapply (Hh h); eauto. by apply list_elem_of_In.
    + intros [= _ <-]. eapply Hb; eauto.
Qed.

Lemma relates_for_each {A B} (body : A -> B -> M (gstate W) B) (xs : list A) :
  (forall x acc, relates R (body x acc)) ->
  forall acc, relates R (for_each xs body acc).
Proof.
  intros Hbody. induction xs as [|x xs IH]; intros acc; simpl.
  - apply relates_ret.
  - apply relates_bind; [apply Hbody | intros a; apply IH].
Qed.

Lemma relates_item_step (item : pyval) (ps : list part) : relates R (item_step item ps).
Proof.
  destruct item; simpl; try apply relates_ret.
  - destruct (is_image_path s); [|apply relates_ret].
    unfold load_image_part. apply relates_try_except.
    + apply relates_bind; [apply relates_exists_on_disk|]. intros [|];
        [|apply relates_ret].
      apply relates_bind; [apply R_open|]. intros img. apply relates_ret.
    + do 3 (constructor; [intros e; simpl; apply relates_ret|]). constructor.
  - destruct (py_eq_str _ _); [|apply relates_ret].
    apply relates_bind; [apply relates_lift|]. intros t. apply relates_ret.
Qed.

Lemma relates_message_step (msg : pyval) (h : list turn) :
  relates R (message_step msg h).
Proof.
  unfold message_step.
  apply relates_bind; [apply relates_lift|]. intros role.
  apply relates_bind; [apply relates_lift|]. intros content.
  match goal with |- relates R (match ?x with _ => _ end) => destruct x end;
    [|apply relates_ret].
  match goal with |- relates R (if ?x then _ else _) => destruct x end;
    [apply relates_ret|].
  apply relates_bind.
  - destruct content; simpl; try apply relates_ret.
    apply relates_for_each. intros; apply relates_item_step.
  - intros ps. case_bool_decide; apply relates_ret.
Qed.

Lemma relates_adapt_history (messages : pyval) : relates R (adapt_history messages).
Proof.
  unfold adapt_history. apply relates_bind; [apply relates_lift|]. intros msgs.
  apply relates_for_each. intros; apply relates_message_step.
Qed.

End Relates.

(** *** The generation call *)

Lemma gemini_call_split (messages system model_name api_key max_tokens temperature : pyval)
    (s : gstate W) :
  gemini_call messages system model_name api_key max_tokens temperature s =
    match send_request messages system model_name api_key max_tokens temperature s with
    | (Ok resp, s') => read_response resp s'
    | (Raise e, s') => (Raise e, s')
    end.
Proof.
  unfold gemini_call, send_request, read_response, bind.
  repeat match goal with
         | |- context [match ?m s with _ => _ end] =>
             destruct (m s) as [[?|?] ?]; try reflexivity
         | |- context [match ?m ?s1 with _ => _ end] =>
             is_var s1; destruct (m s1) as [[?|?] ?]; try reflexivity
         end.
Qed.

Lemma same_locals_extern {A} (f : W -> result A * W) :
  relates same_locals (extern f).
Proof.
  intros s r s'. unfold extern. destruct (f (gworld s)). by intros [= _ <-].
Qed.

Lemma same_locals_trans (a b c : gstate W) :
  same_locals a b -> same_locals b c -> same_locals a c.
Proof. intros [? ?] [? ?]. split; congruence. Qed.

Lemma locals_send_request
    (messages system model_name api_key max_tokens temperature : pyval) :
  relates same_locals
    (send_request messages system model_name api_key max_tokens temperature).
Proof.
  unfold send_request.
  repeat (apply (relates_bind same_locals same_locals_trans);
          [ first [ apply (relates_adapt_history same_locals); try done;
                    [ apply same_locals_trans
                    | intros p; apply same_locals_extern ]
                  | apply same_locals_extern ]
          | intros ? ]).
  apply same_locals_extern.
Qed.

(** The pair that the function returns once the [try] is over. *)
Lemma run_cases (messages system model_name api_key max_tokens temperature : pyval)
    (w : W) :
  run_gemini_interleaved messages system model_name api_key max_tokens temperature w =
    match gemini_call messages system model_name api_key max_tokens temperature
            (initial w) with
    | (Ok _, s) => (Ok (response_text s, token_info s), gworld s)
    | (Raise e, s) => (Ok (PStr (failure_text e), zero_token_info), gworld s)
    end.
Proof.
  unfold run_gemini_interleaved, try_except.
  destruct (gemini_call _ _ _ _ _ _ (initial w)) as [[u|e] s] eqn:Hcall;
    [reflexivity|].
  apply raise_keeps_gemini_call in Hcall. simpl in Hcall.
  unfold failure_text, gemini_handlers. simpl.
  destruct (isinstance_exn e ImportError); simpl; [by rewrite Hcall|].
  destruct (isinstance_exn e AttributeError); simpl; [by rewrite Hcall|].
  destruct (isinstance_exn e TypeError); simpl; [by rewrite Hcall|].
  rewrite DispatcherFacts.exception_is_root. simpl. by rewrite Hcall.
Qed.

(** What the function returns once the library has answered with [resp]. *)
Lemma run_after_response (messages system model_name api_key max_tokens temperature : pyval)
    (w : W) (resp : response) (s : gstate W) :
  send_request messages system model_name api_key max_tokens temperature (initial w)
    = (Ok resp, s) ->
  run_gemini_interleaved messages system model_name api_key max_tokens temperature w =
    match read_response resp (mk_gstate (gworld s) (PStr "") zero_token_info) with
    | (Ok _, s') => (Ok (response_text s', token_info s'), gworld s')
    | (Raise e, s') => (Ok (PStr (failure_text e), zero_token_info), gworld s')
    end.
Proof.
  intros Hsend. rewrite run_cases, gemini_call_split, Hsend.
  destruct (locals_send_request _ _ _ _ _ _ _ _ _ Hsend) as [Htext Htok].
  destruct s as [w' rt ti]; simpl in *. by subst.
Qed.

(** X15: when the library answers, the text of the answer is returned
    with the counts read from its usage metadata, a missing count being
    zero, and the total is their sum. *)
Theorem response_with_counts
    (messages system model_name api_key max_tokens temperature : pyval)
    (w : W) (resp : response) (s : gstate W) (t total : pyval) (um : usage) :
  send_request messages system model_name api_key max_tokens temperature (initial w)
    = (Ok resp, s) ->
  text resp = Ok t ->
  usage_metadata resp = Ok um ->
  py_add (input_count um) (output_count um) = Ok total ->
  run_gemini_interleaved messages system model_name api_key max_tokens temperature w
  = (Ok (t, dict_literal [("input_tokens", input_count um);
                          ("output_tokens", output_count um);
                          ("total_tokens", total)]),
     gworld s).
Proof.
  intros Hsend Ht Hum Hadd. rewrite (run_after_response _ _ _ _ _ _ _ _ _ Hsend).
  unfold read_response, read_usage, try_except, bind, lift, set_response_text,
    set_token_info. rewrite Ht; simpl. rewrite Hum; simpl.
  fold (input_count um) (output_count um). by rewrite Hadd.
Qed.

(** X16: when the answer has no usage metadata (reading it raises an
    [AttributeError]), the text of the answer is returned all the same,
    with the three counters at zero. *)
Theorem missing_usage_keeps_text
    (messages system model_name api_key max_tokens temperature : pyval)
    (w : W) (resp : response) (s : gstate W) (t : pyval) (e : exn) :
  send_request messages system model_name api_key max_tokens temperature (initial w)
    = (Ok resp, s) ->
  text resp = Ok t ->
  usage_metadata resp = Raise e ->
  isinstance_exn e AttributeError = true ->
  run_gemini_interleaved messages system model_name api_key max_tokens temperature w
  = (Ok (t, zero_token_info), gworld s).
Proof.
  intros Hsend Ht Hum He. rewrite (run_after_response _ _ _ _ _ _ _ _ _ Hsend).
  unfold read_response, read_usage, try_except, bind, lift, set_response_text.
  rewrite Ht; simpl. rewrite Hum; simpl. by rewrite He.
Qed.

(** X17: when the two counts of the answer cannot be added (one of them is
    [None], say), the failure of the addition is not caught with the
    metadata failures: the text of the answer is discarded and the function
    returns the description of the failure, with the counters at zero. *)
Theorem unaddable_counts_discard_text
    (messages system model_name api_key max_tokens temperature : pyval)
    (w : W) (resp : response) (s : gstate W) (t : pyval) (um : usage) (e : exn) :
  send_request messages system model_name api_key max_tokens temperature (initial w)
    = (Ok resp, s) ->
  text resp = Ok t ->
  usage_metadata resp = Ok um ->
  py_add (input_count um) (output_count um) = Raise e ->
  isinstance_exn e AttributeError = false ->
  run_gemini_interleaved messages system model_name api_key max_tokens temperature w
  = (Ok (PStr (failure_text e), zero_token_info), gworld s).
Proof.
  intros Hsend Ht Hum Hadd He. rewrite (run_after_response _ _ _ _ _ _ _ _ _ Hsend).
  unfold read_response, read_usage, try_except, bind, lift, set_response_text.
  rewrite Ht; simpl. rewrite Hum; simpl.
  fold (input_count um) (output_count um). rewrite Hadd; simpl. by rewrite He.
Qed.

Lemma zero_counts_consistent : consistent_counts zero_token_info.
Proof. exists (PInt 0), (PInt 0), (PInt 0). by split. Qed.

(** X18: whatever happens, the counters returned are consistent: the
    dict holds the three counters and the total is the sum of the other
    two (all zero when the call failed or the metadata is missing). *)
Theorem returned_counts_are_consistent
    (messages system model_name api_key max_tokens temperature : pyval) (w : W) :
  exists t d w',
    run_gemini_interleaved messages system model_name api_key max_tokens temperature w
    = (Ok (t, d), w')
    /\ consistent_counts d.
Proof.
  rewrite run_cases, gemini_call_split.
  destruct (send_request _ _ _ _ _ _ (initial w)) as [[resp|e] s] eqn:Hsend;
    [|eexists _, _, _; split; [reflexivity|apply zero_counts_consistent]].
  destruct (locals_send_request _ _ _ _ _ _ _ _ _ Hsend) as [_ Htok]. simpl in Htok.
  unfold read_response, read_usage, try_except, bind, lift, set_response_text,
    set_token_info.
  destruct (text resp) as [t|e]; simpl;
    [|eexists _, _, _; split; [reflexivity|apply zero_counts_consistent]].
  destruct (usage_metadata resp) as [um|e]; simpl.
  - destruct (py_add _ _) as [total|e] eqn:Hadd; simpl.
    + eexists _, _, _. split; [reflexivity|]. by eexists _, _, _.
    + destruct (isinstance_exn e AttributeError); simpl;
        eexists _, _, _; (split; [reflexivity|]);
        try rewrite Htok; apply zero_counts_consistent.
  - destruct (isinstance_exn e AttributeError); simpl;
      eexists _, _, _; (split; [reflexivity|]);
      try rewrite Htok; apply zero_counts_consistent.
Qed.

(** X19: a system instruction that is empty, or false in any other way, is
    the same as none: the model is built with no system instruction and
    the whole run is the run with [None]. *)
Theorem falsy_system_is_none
    (messages system model_name api_key max_tokens temperature : pyval) (w : W) :
  truthy system = false ->
  run_gemini_interleaved messages system model_name api_key max_tokens temperature w
  = run_gemini_interleaved messages PNone model_name api_key max_tokens temperature w.
Proof.
  intros Hsys. unfold run_gemini_interleaved, gemini_call. rewrite Hsys. reflexivity.
Qed.

Lemma read_response_world (resp : response) (s : gstate W) :
  gworld (read_response resp s).2 = gworld s.
Proof.
  unfold read_response, read_usage, try_except, bind, lift, set_response_text,
    set_token_info.
  destruct (text resp) as [t|e]; simpl; [|done].
  destruct (usage_metadata resp) as [um|e]; simpl.
  - destruct (py_add _ _) as [total|e]; simpl; [done|].
    by destruct (isinstance_exn e AttributeError).
  - by destruct (isinstance_exn e AttributeError).
Qed.

(** The world that the function leaves is the one that the request left. *)
Lemma run_world (messages system model_name api_key max_tokens temperature : pyval)
    (w : W) :
  (run_gemini_interleaved messages system model_name api_key max_tokens temperature w).2
  = gworld (send_request messages system model_name api_key max_tokens temperature
              (initial w)).2.
Proof.
  rewrite run_cases, gemini_call_split.
  destruct (send_request _ _ _ _ _ _ (initial w)) as [[resp|e] s]; simpl; [|done].
  pose proof (read_response_world resp s) as Hw.
  by destruct (read_response resp s) as [[u|e] s1].
Qed.

End Adapter.

(** *** The calls made to the outside *)

Section Logging.
Context {W : Type} (E : Env W).

Lemma log_grows_refl (P : gevent -> Prop) (s : gstate (W * list gevent)) :
  log_grows P s s.
Proof. exists []. split; [by rewrite app_nil_r|constructor]. Qed.

Lemma log_grows_trans (P : gevent -> Prop) (a b c : gstate (W * list gevent)) :
  log_grows P a b -> log_grows P b c -> log_grows P a c.
Proof.
  intros (e1 & H1 & HP1) (e2 & H2 & HP2). exists (e1 ++ e2)%list.
  split; [by rewrite H2, H1, app_assoc|by apply Forall_app].
Qed.

Lemma extern_logged {A} (ev : gevent) (f : W -> result A * W)
    (s : gstate (W * list gevent)) :
  glog (extern (logged ev f) s).2 = (glog s ++ [ev])%list.
Proof.
  unfold extern, logged, glog. destruct s as [[w l] rt ti]; simpl.
  by destruct (f w).
Qed.

Lemma adapter_logs_opens (messages : pyval) :
  relates (log_grows is_open) (adapt_history (ENV := logging E) messages).
Proof.
  apply relates_adapt_history;
    [apply log_grows_refl | apply log_grows_trans|].
  intros p s r s' Hrun. exists [EvOpen p]. split; [|repeat constructor; by exists p].
  pose proof (extern_logged (EvOpen p) (@Image_open W E p) s) as Hlog.
  simpl in Hrun. by rewrite Hrun in Hlog.
Qed.

(** The log of a request, stage by stage: the run stops at the first call
    that raises, and the generation request goes out only with a history
    that the adapter returned. *)
Lemma send_request_log
    (messages system model_name api_key max_tokens temperature : pyval)
    (s s' : gstate (W * list gevent)) (r : result response) :
  send_request (ENV := logging E) messages system model_name api_key max_tokens
    temperature s = (r, s') ->
  let sc := if truthy system then system else PNone in
  exists opens, Forall is_open opens /\
    ((exists e tail,
        r = Raise e /\ glog s' = (glog s ++ tail)%list
        /\ (tail = [EvConfigure api_key]
            \/ tail = [EvConfigure api_key; EvModel model_name sc]
            \/ tail = ([EvConfigure api_key; EvModel model_name sc] ++ opens)%list
            \/ tail = ([EvConfigure api_key; EvModel model_name sc] ++ opens
                       ++ [EvConfig max_tokens temperature])%list))
     \/ (exists m h c s1 s2,
           adapt_history (ENV := logging E) messages s1 = (Ok h, s2)
           /\ glog s' = (glog s ++ [EvConfigure api_key; EvModel model_name sc]
                         ++ opens ++ [EvConfig max_tokens temperature;
                                      EvGenerate m h c])%list)).
Proof.
  intros Hrun sc. revert Hrun. unfold send_request, bind. fold sc.
  pose proof (extern_logged (EvConfigure api_key) (@genai_configure W E api_key) s) as L1.
  simpl in *.
  destruct (extern _ s) as [[[]|e1] s1] eqn:H1; simpl in L1.
  2: { intros [= <- <-]. exists []. split; [constructor|]. left.
       eexists _, _. split; [done|]. split; [exact L1|]. by left. }
  pose proof (extern_logged (EvModel model_name sc)
                (@GenerativeModel W E model_name sc) s1) as L2.
  destruct (extern _ s1) as [[m|e2] s2] eqn:H2; simpl in L2.
  2: { intros [= <- <-]. exists []. split; [constructor|]. left.
       eexists _, _. split; [done|]. split; [|right; by left].
       by rewrite L2, L1, <- app_assoc. }
  destruct (adapt_history messages s2) as [[h|e3] s3] eqn:H3;
    destruct (adapter_logs_opens messages _ _ _ H3) as (opens & L3 & Hopens);
    intros Hrun; exists opens; (split; [exact Hopens|]).
  2: { injection Hrun as <- <-. left. eexists _, _. split; [done|].
       split; [|right; right; by left]. by rewrite L3, L2, L1, <- !app_assoc. }
  revert Hrun.
  pose proof (extern_logged (EvConfig max_tokens temperature)
                (@GenerationConfig W E max_tokens temperature) s3) as L4.
  destruct (extern _ s3) as [[c|e4] s4] eqn:H4; simpl in L4.
  2: { intros [= <- <-]. left. eexists _, _. split; [done|].
       split; [|right; right; by right]. by rewrite L4, L3, L2, L1, <- !app_assoc. }
  intros H5.
  pose proof (extern_logged (EvGenerate m h c) (@generate_content W E m h c) s4) as L5.
  simpl in L5. rewrite H5 in L5. simpl in L5. right.
  exists m, h, c, s2, s3. split; [exact H3|].
  by rewrite L5, L4, L3, L2, L1, <- !app_assoc.
Qed.

(** X20: the helper talks to the outside in a fixed order and asks for one
    generation at most: the credential is configured first, then the model
    is built with the system instruction (or none), then images are opened
    while the history is adapted, then the generation configuration is
    built, and last comes the single generation request.  The run stops at
    the first call that raises; nothing is retried. *)
Theorem single_request_in_order
    (messages system model_name api_key max_tokens temperature : pyval) (w : W) :
  let log :=
    (run_gemini_interleaved (ENV := logging E) messages system model_name api_key
       max_tokens temperature (w, [])).2.2 in
  let sc := if truthy system then system else PNone in
  exists opens m h c,
    Forall is_open opens
    /\ log <> []
    /\ log `prefix_of`
         ([EvConfigure api_key; EvModel model_name sc] ++ opens
          ++ [EvConfig max_tokens temperature; EvGenerate m h c])%list.
Proof.
  intros log sc. subst log. rewrite run_world.
  destruct (send_request _ _ _ _ _ _ (initial (w, []))) as [r s'] eqn:Hsend.
  destruct (send_request_log _ _ _ _ _ _ _ _ _ Hsend)
    as (opens & Hopens & [(e & tail & _ & Hlog & Htail)|(m & h & c & s1 & s2 & _ & Hlog)]);
    fold sc in Htail || fold sc in Hlog; unfold glog in Hlog; simpl in Hlog;
    simpl; rewrite Hlog.
  - exists opens, (mk_model PNone PNone), [], (mk_config PNone PNone).
    split; [done|].
    destruct Htail as [->|[->|[->| ->]]]; (split; [by destruct opens|]);
      eexists; simpl; rewrite <- ?app_assoc; reflexivity.
  - exists opens, m, h, c. split; [done|]. split; [discriminate|].
    exists []. by rewrite app_nil_r.
Qed.

(** X21: when the conversation holds a message that the adapter cannot
    process, nothing is sent: the log of the run has no generation request,
    and the function returns the description of a failure with the
    counters at zero. *)
Theorem rejected_conversation_sends_nothing
    (msgs : list pyval) (system model_name api_key max_tokens temperature : pyval)
    (w : W) :
  Exists rejected_message msgs ->
  let out :=
    run_gemini_interleaved (ENV := logging E) (PList msgs) system model_name api_key
      max_tokens temperature (w, []) in
  (forall m h c, EvGenerate m h c ∉ out.2.2)
  /\ exists e, out.1 = Ok (PStr (failure_text e), zero_token_info).
Proof.
  intros Hrej out. subst out.
  pose proof (run_world (ENV := logging E) (PList msgs) system model_name api_key
                max_tokens temperature (w, [])) as Hworld.
  rewrite run_cases, gemini_call_split in *.
  destruct (send_request _ _ _ _ _ _ (initial (w, []))) as [r s'] eqn:Hsend.
  destruct (send_request_log _ _ _ _ _ _ _ _ _ Hsend)
    as (opens & Hopens & [(e & tail & -> & Hlog & Htail)|(m & h & c & s1 & s2 & Had & _)]).
  - simpl in *. split; [|by exists e].
    unfold glog in Hlog; simpl in Hlog. rewrite Hlog.
    intros m h c Hin.
    assert (Hno : forall l, Forall is_open l -> EvGenerate m h c ∉ l).
    { intros l Hl Hel. rewrite Forall_forall in Hl.
      destruct (Hl _ Hel) as [p Hp]. discriminate. }
    destruct Htail as [->|[->|[->| ->]]]; set_unfold in Hin;
      repeat match goal with
             | H : _ \/ _ |- _ => destruct H
             | H : EvGenerate _ _ _ = _ |- _ => discriminate H
             | H : _ ∈ opens |- _ => by apply (Hno opens Hopens) in H
             | H : False |- _ => destruct H
             end.
  - assert (Hraise : exists e s3,
              adapt_history (ENV := logging E) (PList msgs) s1 = (Raise e, s3)).
    { unfold adapt_history, deepcopy, bind, lift; simpl.
      apply (for_each_raises rejected_message); [|done].
      intros msg acc s0. apply message_step_rejected. }
    destruct Hraise as (e & s3 & He). congruence.
Qed.

End Logging.

(** Runs in the sample environment. *)

Lemma adapt_history_length_witness :
  (length [mk_turn (PStr "user") [Text (PStr "hello")]]
   <= length [message "tool" (PStr "x"); message "user" (PStr "hello")])%nat.
Proof.
  apply (adapt_history_length
           [message "tool" (PStr "x"); message "user" (PStr "hello")]
           (initial tt) (initial tt)).
  reflexivity.
Defined.

Lemma content_parts_plain_witness :
  content_parts
    (PList [PDict (dict_literal [("type", PStr "text"); ("text", PStr "one")]);
            PStr "two"]) (initial tt)
  = (Ok [Text (PStr "one"); Text (PStr "two")], initial tt).
Proof.
  apply (proj1 (content_parts_plain (initial tt))
           [PDict (dict_literal [("type", PStr "text"); ("text", PStr "one")]);
            PStr "two"]
           [PStr "one"; PStr "two"]).
  repeat constructor.
Defined.

Lemma adapt_history_without_images_witness :
  (adapt_history (PList [message "user" (PList [PStr "look at this"]);
                         message "assistant" (PStr "/data/ok.png")]) (initial tt)).2
  = initial tt.
Proof.
  apply (adapt_history_without_images
           [message "user" (PList [PStr "look at this"]);
            message "assistant" (PStr "/data/ok.png")] (initial tt)).
  repeat constructor; intros d items [= <-]; vm_compute; intros [= <-];
    repeat constructor.
  intros p [= <-]. reflexivity.
Defined.

Lemma adapt_history_rejects_witness :
  exists e s',
    adapt_history
      (PList [message "user" (PStr "fine");
              message "user" (PList [PDict (dict_literal [("type", PStr "text")])])])
      (initial tt)
    = (Raise e, s').
Proof.
  apply (adapt_history_rejects
           [message "user" (PStr "fine");
            message "user" (PList [PDict (dict_literal [("type", PStr "text")])])]
           (initial tt)).
  apply Exists_cons_tl, Exists_cons_hd. right.
  eexists _, _. split; [reflexivity|]. split; [by eexists|]. split; [reflexivity|].
  apply Exists_cons_hd. eexists. split; [reflexivity|]. split; reflexivity.
Defined.


Lemma rejected_conversation_sends_nothing_witness :
  (forall m h c,
     EvGenerate m h c ∉
       (run_gemini_interleaved (ENV := logging sample_env)
          (PList [PStr "not a message"]) PNone (PStr "gemini-1.5-pro-latest")
          (PStr "key") (PInt 64) (PFloat (S754_zero false)) (tt, [])).2.2)
  /\ exists e,
       (run_gemini_interleaved (ENV := logging sample_env)
          (PList [PStr "not a message"]) PNone (PStr "gemini-1.5-pro-latest")
          (PStr "key") (PInt 64) (PFloat (S754_zero false)) (tt, [])).1
       = Ok (PStr (failure_text e), zero_token_info).
Proof.
  apply (rejected_conversation_sends_nothing sample_env [PStr "not a message"]
           PNone (PStr "gemini-1.5-pro-latest") (PStr "key") (PInt 64)
           (PFloat (S754_zero false)) tt).
  apply Exists_cons_hd. left. discriminate.
Defined.

(** The log of a run that goes through: one image opened, one request. *)
Example logged_run :
  (run_gemini_interleaved (ENV := logging sample_env)
     (PList [message "user" (PList [PStr "what is this?"; PStr "/data/ok.png"])])
     (PStr "") (PStr "gemini-1.5-pro-latest") (PStr "key") (PInt 64)
     (PFloat (S754_zero false)) (tt, [])).2.2
  = [EvConfigure (PStr "key");
     EvModel (PStr "gemini-1.5-pro-latest") PNone;
     EvOpen "/data/ok.png";
     EvConfig (PInt 64) (PFloat (S754_zero false));
     EvGenerate (mk_model (PStr "gemini-1.5-pro-latest") PNone)
       [mk_turn (PStr "user")
          [Text (PStr "what is this?"); Img (mk_image "/data/ok.png")]]
       (mk_config (PInt 64) (PFloat (S754_zero false)))].
Proof. reflexivity. Qed.

(** Runs in the environment whose answers depend on the model. *)

Lemma response_with_counts_witness :
  run_gemini_interleaved (ENV := shaped_env) (PList [message "user" (PStr "hello")])
    PNone (PStr "plain") (PStr "key") (PInt 64) (PFloat (S754_zero false)) tt
  = (Ok (PStr "done",
         dict_literal [("input_tokens", PInt 7); ("output_tokens", PInt 0);
                       ("total_tokens", PInt 7)]), tt).
Proof.
  apply (response_with_counts (ENV := shaped_env)
           (PList [message "user" (PStr "hello")])
           PNone (PStr "plain") (PStr "key") (PInt 64) (PFloat (S754_zero false)) tt
           (mk_response (Ok (PStr "done")) (Ok (mk_usage (Some (PInt 7)) None)))
           (initial tt) (PStr "done") (PInt 7) (mk_usage (Some (PInt 7)) None));
    reflexivity.
Defined.

Lemma missing_usage_keeps_text_witness :
  run_gemini_interleaved (ENV := shaped_env) (PList [message "user" (PStr "hello")])
    PNone (PStr "bare") (PStr "key") (PInt 64) (PFloat (S754_zero false)) tt
  = (Ok (PStr "done", zero_token_info), tt).
Proof.
  apply (missing_usage_keeps_text (ENV := shaped_env)
           (PList [message "user" (PStr "hello")])
           PNone (PStr "bare") (PStr "key") (PInt 64) (PFloat (S754_zero false)) tt
           (mk_response (Ok (PStr "done"))
              (Raise (mk_exn AttributeError
                        "'Response' object has no attribute 'usage_metadata'")))
           (initial tt) (PStr "done")
           (mk_exn AttributeError "'Response' object has no attribute 'usage_metadata'"));
    reflexivity.
Defined.

Lemma unaddable_counts_discard_text_witness :
  run_gemini_interleaved (ENV := shaped_env) (PList [message "user" (PStr "hello")])
    PNone (PStr "partial") (PStr "key") (PInt 64) (PFloat (S754_zero false)) tt
  = (Ok (PStr "Type error during Gemini call (check arguments/version): unsupported operand type(s) for +: 'NoneType' and 'int'.",
         zero_token_info), tt).
Proof.
  apply (unaddable_counts_discard_text (ENV := shaped_env)
           (PList [message "user" (PStr "hello")])
           PNone (PStr "partial") (PStr "key") (PInt 64) (PFloat (S754_zero false)) tt
           (mk_response (Ok (PStr "done")) (Ok (mk_usage (Some PNone) (Some (PInt 5)))))
           (initial tt) (PStr "done") (mk_usage (Some PNone) (Some (PInt 5)))
           (mk_exn TypeError
              "unsupported operand type(s) for +: 'NoneType' and 'int'"));
    reflexivity.
Defined.

Lemma falsy_system_is_none_witness :
  run_gemini_interleaved (PList [message "user" (PStr "hello")])
    (PStr "") (PStr "gemini-1.5-pro-latest") (PStr "key") (PInt 64)
    (PFloat (S754_zero false)) tt
  = run_gemini_interleaved (PList [message "user" (PStr "hello")])
      PNone (PStr "gemini-1.5-pro-latest") (PStr "key") (PInt 64)
      (PFloat (S754_zero false)) tt.
Proof.
  apply (falsy_system_is_none (PList [message "user" (PStr "hello")])
           (PStr "") (PStr "gemini-1.5-pro-latest") (PStr "key") (PInt 64)
           (PFloat (S754_zero false)) tt).
  reflexivity.
Defined.

End GeminiMoreFacts.
